(** * collect_weather.py: delta trackers, conversions and the record translator

    A shallow embedding of [src/collect_weather.py] and the properties of
    its four core components: [DeltaTracker], the tracker registry
    [_stateful_delta_trackers], [apply_conversion] and
    [populate_wunderground_request_data], together with the start-up part
    of [main].

    Conventions of the embedding:
    - Python values are the type [pyval]; [int] is [Z] (unbounded), [float]
      is a binary64 primitive float, [dict] with string keys is a [gmap].
    - A raised exception is the [Raise] case of [result]; code that mutates
      module globals runs in the state-and-exception monad [M] over [world].
    - A [datetime] is the number of microseconds it denotes (its
      resolution); [timedelta(minutes=m)] is [m * 60_000_000]. *)

From Stdlib Require Import ZArith Floats Lia.
From stdpp Require Import gmap strings list fin_maps sorting.

#[local] Set Warnings "-register-all,-inexact-float".
#[local] Open Scope Z_scope.

(** ** Python values and exceptions *)

Inductive pyval :=
| PNone
| PBool (b : bool)
| PInt (z : Z)
| PFloat (f : float)
| PStr (s : string)
| PList (l : list pyval)
| PDict (d : gmap string pyval)
| PStructTime (fields : list Z).

(** The subclasses of [Exception] that the modelled code can meet. *)
Inductive pyexn :=
| TypeError | KeyError | IndexError | AttributeError
| OverflowError | ZeroDivisionError | ValueError | OSError
| UnpicklingError | JSONDecodeError.

Inductive result (A : Type) :=
| Ok (a : A)
| Raise (e : pyexn).
Arguments Ok {A} a.
Arguments Raise {A} e.

Definition rbind {A B} (r : result A) (k : A -> result B) : result B :=
  match r with
  | Ok a => k a
  | Raise e => Raise e
  end.

Notation "'let?' x := r 'in' k" := (rbind r (fun x => k))
  (at level 10, x name, r at level 100, k at level 200).

(** [bool(v)], as used by [if v:] and [not v]. *)
Definition py_truthy (v : pyval) : bool :=
  match v with
  | PNone => false
  | PBool b => b
  | PInt z => negb (z =? 0)
  | PFloat f => negb (f =? 0)%float
  | PStr s => negb (String.eqb s "")
  | PList l => negb (Nat.eqb (length l) 0)
  | PDict d => negb (Nat.eqb (size d) 0)
  | PStructTime _ => true
  end.

(** *** Numbers

    [bool] is a subclass of [int]; arithmetic between an [int] and a
    [float] converts the [int], which raises [OverflowError] when it does
    not fit. *)

Inductive number :=
| NInt (z : Z)
| NFloat (f : float).

Definition as_number (v : pyval) : option number :=
  match v with
  | PBool b => Some (NInt (Z.b2z b))
  | PInt z => Some (NInt z)
  | PFloat f => Some (NFloat f)
  | _ => None
  end.

(** [float(z)]: round to nearest even, [OverflowError] beyond the range. *)
Definition float_of_int (z : Z) : result float :=
  let f := SF2Prim (binary_normalize prec emax z 0 false) in
  if is_infinity f then Raise OverflowError else Ok f.

Definition to_float (n : number) : result float :=
  match n with
  | NInt z => float_of_int z
  | NFloat f => Ok f
  end.

Definition exact_spec_float (z : Z) : spec_float :=
  match z with
  | Z0 => S754_zero false
  | Zpos p => S754_finite false p 0
  | Zneg p => S754_finite true p 0
  end.

(** [a / b] on two [int]s: the correctly rounded quotient. *)
Definition int_true_divide (a b : Z) : result pyval :=
  if b =? 0 then Raise ZeroDivisionError
  else
    let q := SF2Prim (SFdiv prec emax (exact_spec_float a) (exact_spec_float b)) in
    if is_infinity q then Raise OverflowError else Ok (PFloat q).

Definition float_true_divide (x y : float) : result pyval :=
  if (y =? 0)%float then Raise ZeroDivisionError else Ok (PFloat (x / y)).

Definition arith (iop : Z -> Z -> result pyval)
    (fop : float -> float -> result pyval) (a b : pyval) : result pyval :=
  match as_number a, as_number b with
  | Some (NInt x), Some (NInt y) => iop x y
  | Some x, Some y =>
      let? fx := to_float x in
      let? fy := to_float y in
      fop fx fy
  | _, _ => Raise TypeError
  end.

Definition py_sub : pyval -> pyval -> result pyval :=
  arith (fun x y => Ok (PInt (x - y))) (fun x y => Ok (PFloat (x - y))).

Definition py_truediv : pyval -> pyval -> result pyval :=
  arith int_true_divide float_true_divide.

Fixpoint string_repeat (s : string) (n : nat) : string :=
  match n with
  | O => ""
  | S n' => s +:+ string_repeat s n'
  end.

Definition repeat_count (v : pyval) : option nat :=
  match v with
  | PBool b => Some (Z.to_nat (Z.b2z b))
  | PInt z => Some (Z.to_nat z)
  | _ => None
  end.

(** [a * b]: numbers, or a [str] or [list] repeated by an [int]. *)
Definition py_mul (a b : pyval) : result pyval :=
  match a, repeat_count b, repeat_count a, b with
  | PStr s, Some n, _, _ => Ok (PStr (string_repeat s n))
  | PList l, Some n, _, _ => Ok (PList (concat (replicate n l)))
  | _, _, Some n, PStr s => Ok (PStr (string_repeat s n))
  | _, _, Some n, PList l => Ok (PList (concat (replicate n l)))
  | _, _, _, _ =>
      arith (fun x y => Ok (PInt (x * y))) (fun x y => Ok (PFloat (x * y))) a b
  end.

(** [a + b]: numbers, or two [str]s or two [list]s concatenated. *)
Definition py_add (a b : pyval) : result pyval :=
  match a, b with
  | PStr s, PStr s' => Ok (PStr (s +:+ s'))
  | PList l, PList l' => Ok (PList (l ++ l'))
  | _, _ =>
      arith (fun x y => Ok (PInt (x + y))) (fun x y => Ok (PFloat (x + y))) a b
  end.

(** [delta > 0], the comparison [max(0, delta)] makes. *)
Definition py_gt_zero (delta : pyval) : result bool :=
  match as_number delta with
  | Some (NInt z) => Ok (0 <? z)
  | Some (NFloat f) => Ok (0 <? f)%float
  | None => Raise TypeError
  end.

(** [max(0, delta)]: [max] keeps its first argument unless a later one is
    strictly greater. *)
Definition py_max0 (delta : pyval) : result pyval :=
  let? greater := py_gt_zero delta in
  Ok (if greater then delta else PInt 0).

(** ** DeltaTracker *)

Definition timedelta_minutes (m : Z) : Z := m * 60000000.

Record DeltaTracker := {
  field_name : option string;
  values : list (Z * pyval);
  period_in_minutes : Z
}.

(** [DeltaTracker.__init__] *)
Definition DeltaTracker_init (name : option string) (period : Z) : DeltaTracker :=
  {| field_name := name; values := []; period_in_minutes := period |}.

(** The [while] loop of [add_value]: [popleft] while the head is older than
    the cutoff. *)
Fixpoint popleft_while_old (cutoff_time : Z) (vs : list (Z * pyval))
    : list (Z * pyval) :=
  match vs with
  | [] => []
  | (ts, v) :: rest =>
      if ts <? cutoff_time then popleft_while_old cutoff_time rest else vs
  end.

(** [DeltaTracker.add_value(value, timestamp=None)]. [now] is what
    [datetime.now()] returns when the method asks for it. The returned
    tracker is the object after the call: the deque is mutated before the
    delta is computed, so it is updated even when the subtraction raises.
    The cutoff of line 47 is computed as an integer, without the range of
    [datetime]; [add_value_datetime] below is the method with that
    range. *)
Definition add_value (self : DeltaTracker) (value : pyval)
    (timestamp : option Z) (now : Z) : result pyval * DeltaTracker :=
  let timestamp := default now timestamp in
  let appended := values self ++ [(timestamp, value)] in
  let cutoff_time := timestamp - timedelta_minutes (period_in_minutes self) in
  let retained := popleft_while_old cutoff_time appended in
  let self' := {| field_name := field_name self;
                  values := retained;
                  period_in_minutes := period_in_minutes self |} in
  if (length retained <? 2)%nat then (Ok (PInt 0), self')
  else
    match head retained, last retained with
    | Some (_, first_value), Some (_, last_value) =>
        (let? delta := py_sub last_value first_value in py_max0 delta, self')
    | _, _ => (Raise IndexError, self')
    end.

(** The delta of section 4.1 of the specification, written from its words:
    0 with fewer than two retained entries, otherwise
    [max(0, newest_value - oldest_value)] over the first and last one. *)
Definition boundary_delta (retained : list (Z * pyval)) : result pyval :=
  match retained, last retained with
  | (_, oldest_value) :: _ :: _, Some (_, newest_value) =>
      let? delta := py_sub newest_value oldest_value in py_max0 delta
  | _, _ => Ok (PInt 0)
  end.



(** ** Module state and its monad *)

(** The identity of a [dict] object on the heap. *)
Definition ref := positive.

(** What the program prints on [sys.stderr], one constructor per message. *)
Inductive log_line :=
| LoadedTrackers
| NoSavedTrackers
| ErrorLoadingTrackers (e : pyexn)
| ErrorConverting (value conversion_type : pyval) (e : pyexn)
| ErrorLoadingConfig (e : pyexn)
| ErrorCredentialsRequired
| StartingUploads (station_id : pyval).

(** What the operating system supplies: the successive readings of
    [datetime.now()], and the time-zone dependent calendar functions used
    by the ['local_to_utc'] conversion. *)
Record os_env := {
  wall_clock : nat -> Z;
  fromtimestamp_utctimetuple : number -> result pyval;
  mktime_utctimetuple : Z -> result pyval
}.

Record world := {
  _stateful_delta_trackers : gmap (option string) DeltaTracker;
  DEFAULT_WU_DATA : ref;
  heap : gmap ref (gmap string pyval);
  stderr : list log_line;
  clock_reads : nat;
  os : os_env
}.

Definition M (A : Type) : Type := world -> result A * world.

Definition ret {A} (a : A) : M A := fun w => (Ok a, w).

Definition raise {A} (e : pyexn) : M A := fun w => (Raise e, w).

Definition bind {A B} (m : M A) (k : A -> M B) : M B :=
  fun w =>
    match m w with
    | (Ok a, w') => k a w'
    | (Raise e, w') => (Raise e, w')
    end.

Definition lift {A} (r : result A) : M A := fun w => (r, w).

(** [try: body except Exception as e: handler] *)
Definition try_except {A} (body : M A) (handler : pyexn -> M A) : M A :=
  fun w =>
    match body w with
    | (Ok a, w') => (Ok a, w')
    | (Raise e, w') => handler e w'
    end.

Notation "'let!' x := m 'in' k" := (bind m (fun x => k))
  (at level 10, x name, m at level 100, k at level 200).
Notation "'run!' m 'in' k" := (bind m (fun _ => k))
  (at level 10, m at level 100, k at level 200).

Definition set_trackers (reg : gmap (option string) DeltaTracker) : M unit :=
  fun w =>
    (Ok tt, {| _stateful_delta_trackers := reg;
               DEFAULT_WU_DATA := DEFAULT_WU_DATA w;
               heap := heap w;
               stderr := stderr w;
               clock_reads := clock_reads w;
               os := os w |}).

Definition print_stderr (line : log_line) : M unit :=
  fun w =>
    (Ok tt, {| _stateful_delta_trackers := _stateful_delta_trackers w;
               DEFAULT_WU_DATA := DEFAULT_WU_DATA w;
               heap := heap w;
               stderr := stderr w ++ [line];
               clock_reads := clock_reads w;
               os := os w |}).

(** [datetime.now()]: the next reading of the wall clock. *)
Definition datetime_now : M Z :=
  fun w =>
    (Ok (wall_clock (os w) (clock_reads w)),
     {| _stateful_delta_trackers := _stateful_delta_trackers w;
        DEFAULT_WU_DATA := DEFAULT_WU_DATA w;
        heap := heap w;
        stderr := stderr w;
        clock_reads := S (clock_reads w);
        os := os w |}).

(** [d[k] = v] on the dict object [r]; every [r] the program uses is
    allocated. *)
Definition dict_setitem (r : ref) (k : string) (v : pyval) : M unit :=
  fun w =>
    (Ok tt, {| _stateful_delta_trackers := _stateful_delta_trackers w;
               DEFAULT_WU_DATA := DEFAULT_WU_DATA w;
               heap := alter (insert k v) r (heap w);
               stderr := stderr w;
               clock_reads := clock_reads w;
               os := os w |}).

(** The dict object behind a reference, as [print] or the uploader read
    it. *)
Definition deref (w : world) (r : ref) : gmap string pyval :=
  default ∅ (heap w !! r).

(** The state right after the module is imported: lines 15-18 and 23. *)
Definition initial_world (env : os_env) : world :=
  {| _stateful_delta_trackers := ∅;
     DEFAULT_WU_DATA := 1%positive;
     heap := {[ 1%positive :=
                  <["dateutc" := PStr "now"]>
                    (<["action" := PStr "updateraw"]> ∅) ]};
     stderr := [];
     clock_reads := 0;
     os := env |}.

(** ** Persistence: [load_delta_trackers] *)

(** What the file system holds at a path, as seen by the reader: nothing,
    something whose reading raises, or a readable content. *)
Inductive file_state (A : Type) :=
| FileAbsent
| FileUnreadable (e : pyexn)
| FileHolds (content : A).
Arguments FileAbsent {A}.
Arguments FileUnreadable {A} e.
Arguments FileHolds {A} content.

Definition load_delta_trackers
    (PICKLE_FILE : file_state (gmap (option string) DeltaTracker)) : M unit :=
  try_except
    (match PICKLE_FILE with
     | FileHolds loaded =>
         run! set_trackers loaded in
         print_stderr LoadedTrackers
     | FileUnreadable e => raise e
     | FileAbsent => print_stderr NoSavedTrackers
     end)
    (fun e =>
       run! print_stderr (ErrorLoadingTrackers e) in
       set_trackers ∅).

(** ** Conversions: [apply_conversion] *)

(** [field_name not in _stateful_delta_trackers] *)
Definition registry_lacks (field_name : option string) : M bool :=
  fun w => (Ok (bool_decide (_stateful_delta_trackers w !! field_name = None)), w).

(** [_stateful_delta_trackers[field_name]] *)
Definition registry_getitem (field_name : option string) : M DeltaTracker :=
  fun w =>
    match _stateful_delta_trackers w !! field_name with
    | Some tracker => (Ok tracker, w)
    | None => (Raise KeyError, w)
    end.

(** [_stateful_delta_trackers[field_name] = tracker]; also how a tracker
    object mutated in place shows in the registry, which holds trackers by
    value. *)
Definition registry_setitem (field_name : option string)
    (tracker : DeltaTracker) : M unit :=
  fun w => set_trackers (<[field_name := tracker]> (_stateful_delta_trackers w)) w.

(** [_stateful_delta_trackers[field_name].add_value(x)] *)
Definition tracker_add_value (field_name : option string) (x : pyval)
    : M pyval :=
  let! tracker := registry_getitem field_name in
  let! now := datetime_now in
  let out := add_value tracker x None now in
  run! registry_setitem field_name out.2 in
  lift out.1.

Definition delta_hour_mm_to_in (field_name : option string) (x : pyval)
    : M pyval :=
  let! lacks := registry_lacks field_name in
  run! (if lacks : bool
        then registry_setitem field_name (DeltaTracker_init field_name 60)
        else ret tt) in
  let! delta_mm := tracker_add_value field_name x in
  lift (py_truediv delta_mm (PFloat 25.4)).

Definition delta_day_mm_to_in (field_name : option string) (x : pyval)
    : M pyval :=
  let! lacks := registry_lacks field_name in
  run! (if lacks : bool
        then registry_setitem field_name (DeltaTracker_init field_name (60 * 24))
        else ret tt) in
  let! delta_mm := tracker_add_value field_name x in
  lift (py_truediv delta_mm (PFloat 25.4)).

Definition local_to_utc (x : pyval) : M pyval :=
  match as_number x with
  | Some n => fun w => (fromtimestamp_utctimetuple (os w) n, w)
  | None =>
      let! now := datetime_now in
      fun w => (mktime_utctimetuple (os w) now, w)
  end.

(** The items of the dict literal [conversions] of [apply_conversion]. *)
Definition conversions_items (field_name : option string)
    : list (string * (pyval -> M pyval)) :=
  [ ("c_to_f", fun x => lift (let? x9 := py_mul x (PInt 9) in
                              let? x9_5 := py_truediv x9 (PInt 5) in
                              py_add x9_5 (PInt 32)));
    ("ms_to_mph", fun x => lift (py_mul x (PFloat 2.237)));
    ("mm_to_in", fun x => lift (py_truediv x (PFloat 25.4)));
    ("hpa_to_inhg", fun x => lift (py_mul x (PFloat 0.02953)));
    ("local_to_utc", local_to_utc);
    ("delta_hour_mm_to_in", delta_hour_mm_to_in field_name);
    ("delta_day_mm_to_in", delta_day_mm_to_in field_name) ].

Definition conversions (field_name : option string)
    : gmap string (pyval -> M pyval) :=
  list_to_map (conversions_items field_name).

(** [conversions[conversion_type]]: a [list] or [dict] is unhashable, any
    other key that is not in the table is a [KeyError]. *)
Definition conversions_getitem (field_name : option string)
    (conversion_type : pyval) : result (pyval -> M pyval) :=
  match conversion_type with
  | PStr kind =>
      match conversions field_name !! kind with
      | Some conversion => Ok conversion
      | None => Raise KeyError
      end
  | PList _ | PDict _ => Raise TypeError
  | _ => Raise KeyError
  end.

Definition apply_conversion (value conversion_type : pyval)
    (field_name : option string) : M pyval :=
  if py_truthy conversion_type then
    try_except
      (let! conversion := lift (conversions_getitem field_name conversion_type) in
       conversion value)
      (fun e =>
         run! print_stderr (ErrorConverting value conversion_type e) in
         ret value)
  else ret value.

(** ** The record translator: [populate_wunderground_request_data] *)

(** One entry of the configuration's [translations] list: a JSON object
    with the strings ['rtl_field'] and ['field'] and an optional
    ['conversion'] (any JSON value). *)
Record translation := {
  rtl_field : string;
  field : string;
  conversion : option pyval
}.

(** [v[k]] for a string key. *)
Definition py_getitem (v : pyval) (k : string) : result pyval :=
  match v with
  | PDict d =>
      match d !! k with
      | Some x => Ok x
      | None => Raise KeyError
      end
  | _ => Raise TypeError
  end.

(** The body of the [for trans in translations] loop. *)
Definition translate_rule (json_data : gmap string pyval) (wu_data : ref)
    (trans : translation) : M unit :=
  match json_data !! rtl_field trans with
  | Some value =>
      let wu_field := field trans in
      let! value :=
        match conversion trans with
        | Some conversion_type =>
            apply_conversion value conversion_type (Some (rtl_field trans))
        | None => ret value
        end in
      dict_setitem wu_data wu_field value
  | None => ret tt
  end.

Fixpoint for_translations (json_data : gmap string pyval) (wu_data : ref)
    (translations : list translation) : M unit :=
  match translations with
  | [] => ret tt
  | trans :: rest =>
      run! translate_rule json_data wu_data trans in
      for_translations json_data wu_data rest
  end.

(** The function returns the reference [wu_data], which is the object
    bound to the global [DEFAULT_WU_DATA]: no copy is made. *)
Definition populate_wunderground_request_data (json_data : gmap string pyval)
    (translations : list translation) (config : pyval) : M ref :=
  let! wu_data := (fun w => (Ok (DEFAULT_WU_DATA w), w)) in
  let! wunderground := lift (py_getitem config "wunderground") in
  let! station_key := lift (py_getitem wunderground "station_key") in
  run! dict_setitem wu_data "PASSWORD" station_key in
  let! wunderground := lift (py_getitem config "wunderground") in
  let! station_id := lift (py_getitem wunderground "station_id") in
  run! dict_setitem wu_data "ID" station_id in
  run! for_translations json_data wu_data translations in
  ret wu_data.

(** ** Start-up: [main] up to the read loop *)

(** [d.get(k, dflt)]; only a [dict] has the method. *)
Definition dict_get (v : pyval) (k : string) (dflt : pyval) : result pyval :=
  match v with
  | PDict d => Ok (default dflt (d !! k))
  | _ => Raise AttributeError
  end.

Definition get_rtl_command (config : pyval) : result (list pyval) :=
  let? rtl_sdr := py_getitem config "rtl_sdr" in
  let? rtl_freq := py_getitem rtl_sdr "frequency" in
  let? rtl_sdr := py_getitem config "rtl_sdr" in
  let? decoder_id := py_getitem rtl_sdr "decoder_id" in
  Ok [PStr "rtl_433"; PStr "-v"; PStr "-R"; decoder_id;
      PStr "-f"; rtl_freq; PStr "-F"; PStr "json"].

(** [' '.join(parts)]: every element has to be a [str]. *)
Fixpoint join_space (parts : list pyval) : result string :=
  match parts with
  | [] => Ok ""
  | [PStr s] => Ok s
  | PStr s :: rest => let? joined := join_space rest in Ok (s +:+ " " +:+ joined)
  | _ :: _ => Raise TypeError
  end.

(** How the start-up part of [main] ends. *)
Inductive startup :=
| SysExit (status : Z)
| Returned
| Traceback (e : pyexn)
| ReadLoop (rtl_cmd : list pyval) (translations : pyval).

(** The exit status of the process when it ends at start-up: the argument
    of [sys.exit], 0 when [main] returns, 1 after an uncaught exception. *)
Definition exit_status (s : startup) : option Z :=
  match s with
  | SysExit status => Some status
  | Returned => Some 0
  | Traceback _ => Some 1
  | ReadLoop _ _ => None
  end.

Definition read_credentials (config : pyval) : result (pyval * pyval * pyval) :=
  let? wunderground := dict_get config "wunderground" (PDict ∅) in
  let? station_id := dict_get wunderground "station_id" PNone in
  let? wunderground := dict_get config "wunderground" (PDict ∅) in
  let? station_key := dict_get wunderground "station_key" PNone in
  let? wunderground := dict_get config "wunderground" (PDict ∅) in
  let? translations := dict_get wunderground "translations" (PDict ∅) in
  Ok (station_id, station_key, translations).

Definition main
    (PICKLE_FILE : file_state (gmap (option string) DeltaTracker))
    (CONFIG_FILE : file_state pyval) (w : world) : startup * world :=
  match load_delta_trackers PICKLE_FILE w with
  | (Raise e, w) => (Traceback e, w)
  | (Ok _, w) =>
      match CONFIG_FILE with
      | FileAbsent =>
          (SysExit 1, (print_stderr (ErrorLoadingConfig OSError) w).2)
      | FileUnreadable e =>
          (SysExit 1, (print_stderr (ErrorLoadingConfig e) w).2)
      | FileHolds config =>
          match read_credentials config with
          | Raise e => (Traceback e, w)
          | Ok (station_id, station_key, translations) =>
              if negb (py_truthy station_id) || negb (py_truthy station_key)
              then (Returned, (print_stderr ErrorCredentialsRequired w).2)
              else
                let w := (print_stderr (StartingUploads station_id) w).2 in
                match (let? rtl_cmd := get_rtl_command config in
                       let? _ := join_space rtl_cmd in Ok rtl_cmd) with
                | Raise e => (Traceback e, w)
                | Ok rtl_cmd => (ReadLoop rtl_cmd translations, w)
                end
          end
      end
  end.

(** ** The specification's vocabulary *)

(** [get_or_create] of section 4.2, written from the specification's
    words: the existing tracker of the field when there is one, otherwise
    a new one with the given window, registered under the field. *)
Definition spec_get_or_create (registry : gmap (option string) DeltaTracker)
    (name : option string) (window_minutes : Z)
    : DeltaTracker * gmap (option string) DeltaTracker :=
  match registry !! name with
  | Some tracker => (tracker, registry)
  | None =>
      let tracker := DeltaTracker_init name window_minutes in
      (tracker, <[name := tracker]> registry)
  end.

(** The stateful conversions of section 4.3, written from the
    specification's words:
    [get_or_create(field_name, window).observe(v) / 25.4], where [observe]
    is [add_value] at the current time. *)
Definition spec_delta_accumulation (window_minutes : Z)
    (name : option string) (v : pyval) : M pyval :=
  fun w =>
    let created := spec_get_or_create (_stateful_delta_trackers w) name
                     window_minutes in
    let observed := add_value created.1 v None
                      (wall_clock (os w) (clock_reads w)) in
    (let? delta := observed.1 in py_truediv delta (PFloat 25.4),
     {| _stateful_delta_trackers := <[name := observed.2]> created.2;
        DEFAULT_WU_DATA := DEFAULT_WU_DATA w;
        heap := heap w;
        stderr := stderr w;
        clock_reads := S (clock_reads w);
        os := os w |}).

(** The window a stateful conversion kind asks for. *)
Definition window_of_kind (kind : string) : option Z :=
  if String.eqb kind "delta_hour_mm_to_in" then Some 60
  else if String.eqb kind "delta_day_mm_to_in" then Some (60 * 24)
  else None.

(** A finite float as an exact fraction [numerator / denominator]. *)
Definition float_fraction (f : float) : option (Z * Z) :=
  match Prim2SF f with
  | S754_zero _ => Some (0, 1)
  | S754_finite s m e =>
      let n := if s then Z.neg m else Z.pos m in
      Some (if 0 <=? e then (n * 2 ^ e, 1) else (n, 2 ^ (- e)))
  | _ => None
  end.

(** [f] lies within half a unit of the last of [digits] decimals of
    [n / 10 ^ digits]: the meaning of "f ≈ 0.1969" for [digits = 4] and
    [n = 1969]. *)
Definition approx_decimal (digits n : Z) (f : float) : Prop :=
  match float_fraction f with
  | Some (p, q) => 2 * Z.abs (p * 10 ^ digits - n * q) <= q
  | None => False
  end.

(** What no conversion and no translation changes: the heap of dict
    objects, the binding of [DEFAULT_WU_DATA] and the environment. *)
Definition same_store (w w' : world) : Prop :=
  heap w' = heap w /\
  DEFAULT_WU_DATA w' = DEFAULT_WU_DATA w /\
  os w' = os w.

(** Every tracker of [w] is still registered in [w'], under the same
    field and with the same window. *)
Definition windows_kept (w w' : world) : Prop :=
  forall name tracker,
    _stateful_delta_trackers w !! name = Some tracker ->
    exists tracker',
      _stateful_delta_trackers w' !! name = Some tracker' /\
      period_in_minutes tracker' = period_in_minutes tracker /\
      field_name tracker' = field_name tracker.


(** A sequence of [populate_wunderground_request_data] calls with the same
    rules and configuration, one per reading; the result lists what each
    call returned. *)
Fixpoint translate_seq (readings : list (gmap string pyval))
    (translations : list translation) (config : pyval) (w : world)
    : list (result ref) * world :=
  match readings with
  | [] => ([], w)
  | json_data :: rest =>
      let out := populate_wunderground_request_data json_data translations
                   config w in
      let outs := translate_seq rest translations config out.2 in
      (out.1 :: outs.1, outs.2)
  end.

(** An environment for the examples: a clock that reads [t0] first and is
    [step] microseconds later at each further reading. The calendar
    functions play no part in the properties below. *)
Definition example_env (t0 step : Z) : os_env :=
  {| wall_clock := fun n => t0 + Z.of_nat n * step;
     fromtimestamp_utctimetuple := fun _ => Raise OSError;
     mktime_utctimetuple := fun _ => Raise OverflowError |}.

(** The destination fields of the rules that fire on a reading: those
    whose source field the reading has. *)
Definition fired_fields (json_data : gmap string pyval)
    (translations : list translation) : list string :=
  field <$> filter (fun trans => is_Some (json_data !! rtl_field trans))
              translations.

(** Between [w] and [w'] the dict object [r] was only written at [keys]:
    it is still allocated, no key was removed, and the keys outside
    [keys] hold what they held. *)
Definition dict_written (r : ref) (keys : list string) (w w' : world) : Prop :=
  DEFAULT_WU_DATA w' = DEFAULT_WU_DATA w /\
  (is_Some (heap w !! r) -> is_Some (heap w' !! r)) /\
  (forall k, k ∉ keys -> deref w' r !! k = deref w r !! k) /\
  (forall k, is_Some (deref w r !! k) -> is_Some (deref w' r !! k)).

(** The configuration, rules and readings of the examples. *)
Definition example_config : pyval :=
  PDict (<["wunderground" :=
             PDict (<["station_id" := PStr "KCASANFR1"]>
                      (<["station_key" := PStr "secret"]> ∅))]> ∅).

Definition example_translations : list translation :=
  [ {| rtl_field := "temperature_C"; field := "tempf";
       conversion := Some (PStr "c_to_f") |};
    {| rtl_field := "rain_mm"; field := "rainin";
       conversion := Some (PStr "mm_to_in") |} ].

Definition example_reading : gmap string pyval :=
  <["temperature_C" := PInt 20]> (<["rain_mm" := PInt 5]> ∅).

(** A later reading without a temperature. *)
Definition example_reading_rain_only : gmap string pyval :=
  <["rain_mm" := PInt 5]> ∅.

(** A configuration that loads but names no credentials:
    [{"wunderground": {}, "rtl_sdr": {...}}]. *)
Definition config_without_credentials : pyval :=
  PDict (<["wunderground" := PDict ∅]>
           (<["rtl_sdr" := PDict (<["frequency" := PStr "915M"]>
                                    (<["decoder_id" := PStr "78"]> ∅))]> ∅)).

(** ** The rest of the program: uploads, saving, the read loop *)

(** What the functions of this part print, on [sys.stderr] or the
    standard output; it is collected in the run's own [console], beside
    the [stderr] of the module state. *)
Inductive console_line :=
| SavedTrackers
| ErrorSavingTrackers (e : pyexn)
| UploadFailed (text : string)
| ErrorUploading (e : pyexn)
| ReceivedData (json_data : pyval)
| UpdateWunderground (wu_data : ref)
| InvalidJSON (e : pyexn)
| ErrorProcessingData (e : pyexn)
| ErrorStartingRtl
| RtlExited (returncode : Z) (stderr_output : string).

(** [hay.startswith(needle)] *)
Fixpoint str_startswith (needle hay : string) : bool :=
  match needle, hay with
  | EmptyString, _ => true
  | String a needle', String b hay' =>
      Ascii.eqb a b && str_startswith needle' hay'
  | String _ _, EmptyString => false
  end.

(** [needle in hay] on two [str]s. *)
Fixpoint str_contains (needle hay : string) : bool :=
  str_startswith needle hay ||
  match hay with
  | EmptyString => false
  | String _ rest => str_contains needle rest
  end.

(** What [requests.get] does: it answers, or it raises. *)
Inductive http_outcome :=
| HttpResponse (status_code : Z) (text : string)
| HttpRaises (e : pyexn).

(** [upload_to_wunderground]; [net] is the outcome of the request. The
    result is the returned [bool] with the lines printed. *)
Definition upload_to_wunderground (_station_id _station_key : pyval)
    (params : gmap string pyval) (net : http_outcome)
    : bool * list console_line :=
  match net with
  | HttpResponse status_code text =>
      if (status_code =? 200) && str_contains "success" text
      then (true, [])
      else (false, [UploadFailed text])
  | HttpRaises e => (false, [ErrorUploading e])
  end.

(** What opening and writing the pickle file does: it succeeds, or it
    raises and leaves the file in the state [left_on_disk] (untouched when [open]
    failed, truncated when [pickle.dump] did). *)
Inductive write_attempt :=
| WriteSucceeds
| WriteRaises (e : pyexn)
    (left_on_disk : file_state (gmap (option string) DeltaTracker)).

(** [save_delta_trackers]: the lines printed and the file afterwards. *)
Definition save_delta_trackers (attempt : write_attempt)
    (PICKLE_FILE : file_state (gmap (option string) DeltaTracker))
    (w : world)
    : list console_line * file_state (gmap (option string) DeltaTracker) :=
  match attempt with
  | WriteSucceeds =>
      ([SavedTrackers], FileHolds (_stateful_delta_trackers w))
  | WriteRaises e left_on_disk => ([ErrorSavingTrackers e], left_on_disk)
  end.

(** [rtl_field in json_data] for whatever [json.loads] returned: a key of
    a [dict], an element of a [list], a substring of a [str]; a number,
    [None] or a [bool] is not iterable. *)
Definition py_contains (json_data : pyval) (k : string) : result bool :=
  match json_data with
  | PDict d => Ok (bool_decide (is_Some (d !! k)))
  | PList l =>
      Ok (existsb (fun el => match el with
                             | PStr s => String.eqb s k
                             | _ => false
                             end) l)
  | PStr s => Ok (str_contains k s)
  | PStructTime _ => Ok false
  | _ => Raise TypeError
  end.

(** The loop body of [populate_wunderground_request_data] on whatever
    [json.loads] returned. *)
Definition translate_rule_json (json_data : pyval) (wu_data : ref)
    (trans : translation) : M unit :=
  let! present := lift (py_contains json_data (rtl_field trans)) in
  if present : bool then
    let wu_field := field trans in
    let! value := lift (py_getitem json_data (rtl_field trans)) in
    let! value :=
      match conversion trans with
      | Some conversion_type =>
          apply_conversion value conversion_type (Some (rtl_field trans))
      | None => ret value
      end in
    dict_setitem wu_data wu_field value
  else ret tt.

Fixpoint for_translations_json (json_data : pyval) (wu_data : ref)
    (translations : list translation) : M unit :=
  match translations with
  | [] => ret tt
  | trans :: rest =>
      run! translate_rule_json json_data wu_data trans in
      for_translations_json json_data wu_data rest
  end.

(** [populate_wunderground_request_data] as [main] calls it, on whatever
    [json.loads] returned. *)
Definition populate_wunderground_request_data_json (json_data : pyval)
    (translations : list translation) (config : pyval) : M ref :=
  let! wu_data := (fun w => (Ok (DEFAULT_WU_DATA w), w)) in
  let! wunderground := lift (py_getitem config "wunderground") in
  let! station_key := lift (py_getitem wunderground "station_key") in
  run! dict_setitem wu_data "PASSWORD" station_key in
  let! wunderground := lift (py_getitem config "wunderground") in
  let! station_id := lift (py_getitem wunderground "station_id") in
  run! dict_setitem wu_data "ID" station_id in
  run! for_translations_json json_data wu_data translations in
  ret wu_data.

(** One line of the decoder's output after [strip()]: empty, not
    parseable ([json.loads] raises [e]), or a JSON value; [net] is what
    the network does if the record is uploaded. *)
Inductive decoder_line :=
| BlankLine
| InvalidLine (e : pyexn)
| JsonLine (json_data : pyval) (net : http_outcome).

(** The state of a run: the module state, the requests sent (the
    content of [params] when sent, and what [upload_to_wunderground]
    returned) and the lines printed. *)
Record run_state := {
  mem : world;
  uploads : list (gmap string pyval * bool);
  console : list console_line
}.

Definition is_JSONDecodeError (e : pyexn) : bool :=
  match e with
  | JSONDecodeError => true
  | _ => false
  end.

(** The body of [for line in process.stdout]. *)
Definition process_line (station_id station_key : pyval)
    (translations : list translation) (config : pyval)
    (s : run_state) (line : decoder_line) : run_state :=
  match line with
  | BlankLine => s
  | InvalidLine e =>
      {| mem := mem s;
         uploads := uploads s;
         console := console s ++
           [if is_JSONDecodeError e then InvalidJSON e
            else ErrorProcessingData e] |}
  | JsonLine json_data net =>
      match populate_wunderground_request_data_json json_data translations
              config (mem s) with
      | (Ok wu_data, w) =>
          let sent := upload_to_wunderground station_id station_key
                        (deref w wu_data) net in
          {| mem := w;
             uploads := uploads s ++ [(deref w wu_data, sent.1)];
             console := console s ++
               [ReceivedData json_data; UpdateWunderground wu_data] ++
               sent.2 |}
      | (Raise e, w) =>
          {| mem := w;
             uploads := uploads s;
             console := console s ++
               [ReceivedData json_data; ErrorProcessingData e] |}
      end
  end.

Definition read_loop (station_id station_key : pyval)
    (translations : list translation) (config : pyval)
    (lines : list decoder_line) (s : run_state) : run_state :=
  foldl (process_line station_id station_key translations config) s lines.

(** What [subprocess.Popen] and the decoder do: [Popen] raises, or the
    decoder runs, prints [lines] and closes its output (or reading it
    raises [read_error]), and has [returncode] after [terminate()] and
    [wait()]. *)
Inductive popen_outcome :=
| PopenRaises (e : pyexn)
| PopenStarted (lines : list decoder_line) (read_error : option pyexn)
    (returncode : Z) (stderr_output : string).

(** How [main] ends after start-up: it returns, or the [finally] block
    raises [UnboundLocalError] on [process]. *)
Inductive run_end :=
| MainReturns
| UnboundProcess.

(** Lines 227-258 of [main]: the [try] around the read loop and its
    [finally] block. Signals are not part of the model. *)
Definition run_decoder (popen : popen_outcome)
    (station_id station_key : pyval) (translations : list translation)
    (config : pyval) (attempt : write_attempt)
    (PICKLE_FILE : file_state (gmap (option string) DeltaTracker))
    (w : world)
    : run_end * run_state * file_state (gmap (option string) DeltaTracker) :=
  match popen with
  | PopenRaises e =>
      let saved := save_delta_trackers attempt PICKLE_FILE w in
      (UnboundProcess,
       {| mem := w; uploads := [];
          console := [ErrorStartingRtl] ++ saved.1 |},
       saved.2)
  | PopenStarted lines read_error returncode stderr_output =>
      let s := read_loop station_id station_key translations config lines
                 {| mem := w; uploads := []; console := [] |} in
      let failed := match read_error with
                    | Some _ => [ErrorStartingRtl]
                    | None => []
                    end in
      let saved := save_delta_trackers attempt PICKLE_FILE (mem s) in
      let exited := if returncode =? 0 then []
                    else [RtlExited returncode stderr_output] in
      (MainReturns,
       {| mem := mem s; uploads := uploads s;
          console := console s ++ failed ++ saved.1 ++ exited |},
       saved.2)
  end.

(** The JSON values of the lines that parse, in order. *)
Definition parsed_lines (lines : list decoder_line) : list pyval :=
  omap (fun line => match line with
                    | JsonLine json_data _ => Some json_data
                    | _ => None
                    end) lines.

(** The module state after translating the JSON values [readings] one
    after the other. *)
Definition translate_all (translations : list translation) (config : pyval)
    (readings : list pyval) (w : world) : world :=
  foldl (fun w json_data =>
           (populate_wunderground_request_data_json json_data translations
              config w).2) w readings.

(** What the network answers to the lines that parse, in order. *)
Definition upload_answers (lines : list decoder_line) : list http_outcome :=
  omap (fun line => match line with
                    | JsonLine _ net => Some net
                    | _ => None
                    end) lines.

(** Every field of the request [u1] is also a field of the request
    [u2]. *)
Definition fields_kept (u1 u2 : gmap string pyval * bool) : Prop :=
  forall k, is_Some (u1.1 !! k) -> is_Some (u2.1 !! k).

(** The requests sent so far are ordered by their fields, and the shared
    record has every field of each of them. *)
Definition uploads_nested (r : ref) (s : run_state) : Prop :=
  DEFAULT_WU_DATA (mem s) = r /\
  StronglySorted fields_kept (uploads s) /\
  Forall (fun u => forall k, is_Some (u.1 !! k) ->
                             is_Some (deref (mem s) r !! k)) (uploads s).

(** ** The range of [datetime] and the limits of [str]

    Timestamps count microseconds from [datetime.min], the first instant
    of the year 1; [datetime.max] is the last microsecond of the year
    9999. *)
Definition datetime_max : Z := 315537897599999999.

Definition is_datetime (t : Z) : Prop := 0 <= t <= datetime_max.

(** [timedelta(minutes=m)], in microseconds: [OverflowError] when the
    normalised number of days exceeds 999999999 in magnitude. *)
Definition timedelta_of_minutes (m : Z) : result Z :=
  let microseconds := m * 60000000 in
  let days := microseconds / 86400000000 in
  if (-999999999 <=? days) && (days <=? 999999999)
  then Ok microseconds
  else Raise OverflowError.

(** [timestamp - delta] on a [datetime]: [OverflowError] when the result
    is not a [datetime]. *)
Definition datetime_sub (timestamp delta : Z) : result Z :=
  let t := timestamp - delta in
  if (0 <=? t) && (t <=? datetime_max) then Ok t else Raise OverflowError.

(** [DeltaTracker.add_value(value, timestamp=None)] with the range of
    [datetime]: line 47 raises [OverflowError] when the cutoff is not a
    [datetime], after the value has been appended and before anything is
    evicted. Where line 47 does not raise this is [add_value]. *)
Definition add_value_datetime (self : DeltaTracker) (value : pyval)
    (timestamp : option Z) (now : Z) : result pyval * DeltaTracker :=
  let timestamp := default now timestamp in
  let appended := values self ++ [(timestamp, value)] in
  match (let? delta := timedelta_of_minutes (period_in_minutes self) in
         datetime_sub timestamp delta) with
  | Raise e =>
      (Raise e, {| field_name := field_name self;
                   values := appended;
                   period_in_minutes := period_in_minutes self |})
  | Ok cutoff_time =>
      let retained := popleft_while_old cutoff_time appended in
      let self' := {| field_name := field_name self;
                      values := retained;
                      period_in_minutes := period_in_minutes self |} in
      if (length retained <? 2)%nat then (Ok (PInt 0), self')
      else
        match head retained, last retained with
        | Some (_, first_value), Some (_, last_value) =>
            (let? delta := py_sub last_value first_value in py_max0 delta,
             self')
        | _, _ => (Raise IndexError, self')
        end
  end.


(** [str(v)] succeeds, as the f-strings of the error messages need it:
    no [int] in [v] has more than 4300 decimal digits, the limit beyond
    which the conversion of an [int] to [str] raises [ValueError]. *)
Inductive printable : pyval -> Prop :=
| printable_None : printable PNone
| printable_bool b : printable (PBool b)
| printable_int z : Z.abs z < 10 ^ 4300 -> printable (PInt z)
| printable_float f : printable (PFloat f)
| printable_str s : printable (PStr s)
| printable_list l : Forall printable l -> printable (PList l)
| printable_dict d :
    map_Forall (fun _ v => printable v) d -> printable (PDict d)
| printable_struct_time fields :
    Forall (fun z => Z.abs z < 10 ^ 4300) fields ->
    printable (PStructTime fields).

(** A translation rule whose conversion kind, when it has one, can be
    printed. *)
Definition printable_rule (trans : translation) : Prop :=
  forall conversion_type,
    conversion trans = Some conversion_type -> printable conversion_type.
(** ** Properties of the eviction loop *)

Section eviction.
Implicit Types (vs : list (Z * pyval)) (c t : Z) (v : pyval).

Lemma popleft_while_old_split c vs :
  exists evicted,
    vs = evicted ++ popleft_while_old c vs /\
    Forall (fun e => e.1 < c) evicted.
Proof.
  induction vs as [|[ts v] rest IH]; simpl.
  - exists []. split; [reflexivity | constructor].
  - destruct (Z.ltb_spec ts c) as [Hold|Hnew].
    + destruct IH as (ev & Heq & Hall). exists ((ts, v) :: ev). split.
      * simpl. f_equal. exact Heq.
      * constructor; [exact Hold | exact Hall].
    + exists []. split; [reflexivity | constructor].
Qed.

Lemma popleft_while_old_head c vs ts v :
  head (popleft_while_old c vs) = Some (ts, v) -> c <= ts.
Proof.
  induction vs as [|[ts' v'] rest IH]; simpl; [discriminate|].
  destruct (Z.ltb_spec ts' c) as [Hold|Hnew]; [exact IH|].
  simpl. intros [= <- <-]. exact Hnew.
Qed.

Lemma popleft_while_old_keep c vs ts v :
  head vs = Some (ts, v) -> c <= ts -> popleft_while_old c vs = vs.
Proof.
  destruct vs as [|[ts' v'] rest]; simpl; [discriminate|].
  intros [= -> ->] Hle.
  destruct (Z.ltb_spec ts c); [lia | reflexivity].
Qed.

Lemma popleft_while_old_snoc c vs t v :
  c <= t ->
  popleft_while_old c (vs ++ [(t, v)]) = popleft_while_old c vs ++ [(t, v)].
Proof.
  intros Hle. induction vs as [|[ts' v'] rest IH]; simpl.
  - destruct (Z.ltb_spec t c); [lia | reflexivity].
  - destruct (Z.ltb_spec ts' c); [exact IH | reflexivity].
Qed.

Lemma popleft_while_old_sorted c vs :
  StronglySorted Z.le vs.*1 ->
  StronglySorted Z.le (popleft_while_old c vs).*1 /\
  Forall (fun e => c <= e.1) (popleft_while_old c vs).
Proof.
  induction vs as [|[ts v] rest IH]; simpl; intros Hs.
  - split; constructor.
  - apply StronglySorted_inv in Hs as [Hrest Hhd].
    destruct (Z.ltb_spec ts c) as [Hold|Hnew]; [exact (IH Hrest)|].
    split.
    + simpl. constructor; assumption.
    + constructor; [exact Hnew|].
      rewrite Forall_fmap in Hhd. eapply Forall_impl; [exact Hhd|].
      simpl. intros [ts' v'] Hts. simpl in *. lia.
Qed.
End eviction.

(** ** Properties of [add_value] *)

Section add_value_props.
Implicit Types (self tr : DeltaTracker) (value v : pyval).
Implicit Types (timestamp : option Z) (now t : Z).

Lemma add_value_values self value timestamp now :
  let t := default now timestamp in
  values (add_value self value timestamp now).2 =
  popleft_while_old (t - timedelta_minutes (period_in_minutes self))
    (values self ++ [(t, value)]).
Proof.
  unfold add_value. simpl. repeat case_match; reflexivity.
Qed.

Lemma add_value_frame self value timestamp now :
  field_name (add_value self value timestamp now).2 = field_name self /\
  period_in_minutes (add_value self value timestamp now).2 =
    period_in_minutes self.
Proof.
  unfold add_value. simpl. repeat case_match; split; reflexivity.
Qed.

(** The returned delta is the boundary delta of what the call retains. *)
Lemma add_value_boundary self value timestamp now :
  (add_value self value timestamp now).1 =
  boundary_delta (values (add_value self value timestamp now).2).
Proof.
  rewrite add_value_values. unfold add_value. simpl.
  set (retained := popleft_while_old _ _).
  destruct retained as [|[ts1 v1] [|[ts2 v2] rest]] eqn:E; simpl;
    try reflexivity.
  unfold boundary_delta.
  destruct (last _) as [[? ?]|] eqn:El; [reflexivity|].
  exfalso. change ((ts1, v1) :: (ts2, v2) :: rest) with
    ([(ts1, v1)] ++ (ts2, v2) :: rest) in El.
  apply last_None in El. discriminate El.
Qed.


Lemma boundary_delta_long (retained : list (Z * pyval)) ts1 v1 ts2 v2 :
  (2 <= length retained)%nat ->
  head retained = Some (ts1, v1) -> last retained = Some (ts2, v2) ->
  boundary_delta retained = (let? delta := py_sub v2 v1 in py_max0 delta).
Proof.
  destruct retained as [|[ta va] [|b rest]]; simpl; try lia.
  intros _ [= -> ->] Hl. unfold boundary_delta. rewrite Hl. reflexivity.
Qed.



Lemma py_delta_int (a b : Z) :
  (let? delta := py_sub (PInt b) (PInt a) in py_max0 delta) =
  Ok (PInt (Z.max 0 (b - a))).
Proof.
  simpl. unfold py_max0. simpl.
  destruct (Z.ltb_spec 0 (b - a)); simpl; do 2 f_equal; lia.
Qed.
End add_value_props.

(** ** Sequences of observations *)

Section observation_sequences.
Implicit Types (tr : DeltaTracker) (v : pyval) (t : Z).
Implicit Types (obs mid pre : list (Z * pyval)).

Lemma add_value_fresh name W v timestamp now :
  (add_value (DeltaTracker_init name W) v timestamp now).1 = Ok (PInt 0).
Proof.
  unfold add_value. simpl.
  destruct (Z.ltb_spec (default now timestamp)
              (default now timestamp - timedelta_minutes W)); reflexivity.
Qed.

Lemma add_value_fresh_values name W v t :
  0 <= W ->
  values (add_value (DeltaTracker_init name W) v (Some t) t).2 = [(t, v)].
Proof.
  intros HW. rewrite add_value_values. simpl.
  unfold timedelta_minutes.
  destruct (Z.ltb_spec t (t - W * 60000000)); [lia | reflexivity].
Qed.

(** While the oldest entry stays inside the window nothing is evicted,
    and the delta is taken against that oldest entry. *)
Lemma add_value_within tr t1 v1 pre t v :
  values tr = (t1, v1) :: pre ->
  t - t1 <= timedelta_minutes (period_in_minutes tr) ->
  values (add_value tr v (Some t) t).2 = (t1, v1) :: pre ++ [(t, v)] /\
  (add_value tr v (Some t) t).1 =
    (let? delta := py_sub v v1 in py_max0 delta).
Proof.
  intros Hv Hw.
  assert (Hvals : values (add_value tr v (Some t) t).2 =
                  (t1, v1) :: pre ++ [(t, v)]).
  { rewrite add_value_values. simpl. rewrite Hv. simpl.
    destruct (Z.ltb_spec t1 (t - timedelta_minutes (period_in_minutes tr)));
      [lia | reflexivity]. }
  split; [exact Hvals|].
  rewrite add_value_boundary, Hvals.
  apply (boundary_delta_long _ t1 v1 t v).
  - simpl. rewrite length_app. simpl. lia.
  - reflexivity.
  - rewrite app_comm_cons. apply last_snoc.
Qed.



End observation_sequences.

(** ** The delta tracker: returned delta and eviction *)


(** What [add_value] evicts, for a window of non-negative duration and
    timestamps that do not decrease. *)
Lemma add_value_unbounded_eviction self value timestamp now :
  let t := default now timestamp in
  let cutoff := t - timedelta_minutes (period_in_minutes self) in
  let out := add_value self value timestamp now in
  0 <= period_in_minutes self ->
  StronglySorted Z.le (values self).*1 ->
  Forall (fun ts => ts <= t) (values self).*1 ->
  exists evicted,
    values self ++ [(t, value)] = evicted ++ values out.2 /\
    Forall (fun e => e.1 < cutoff) evicted /\
    Forall (fun e => cutoff <= e.1) (values out.2) /\
    (exists ts0 v0, head (values out.2) = Some (ts0, v0) /\ cutoff <= ts0) /\
    last (values out.2) = Some (t, value) /\
    out.1 = boundary_delta (values out.2) /\
    StronglySorted Z.le (values out.2).*1 /\
    Forall (fun ts => ts <= t) (values out.2).*1.
Proof.
  intros t cutoff out HW Hsorted Hbound.
  assert (Hvals : values out.2 =
                  popleft_while_old cutoff (values self ++ [(t, value)]))
    by apply add_value_values.
  assert (Hcut : cutoff <= t).
  { unfold cutoff, timedelta_minutes. lia. }
  assert (Happ : StronglySorted Z.le (values self ++ [(t, value)]).*1).
  { rewrite fmap_app. apply StronglySorted_app_2.
    - intros x1 x2 Hx1 Hx2. apply list_elem_of_singleton in Hx2 as ->.
      rewrite Forall_forall in Hbound. apply Hbound. exact Hx1.
    - exact Hsorted.
    - repeat constructor. }
  destruct (popleft_while_old_split cutoff (values self ++ [(t, value)]))
    as (evicted & Hsplit & Hold).
  destruct (popleft_while_old_sorted cutoff _ Happ) as [Hsorted' Hnew].
  rewrite <- Hvals in Hsplit, Hsorted', Hnew.
  assert (Hlast : last (values out.2) = Some (t, value)).
  { rewrite Hvals, popleft_while_old_snoc by exact Hcut. apply last_snoc. }
  exists evicted. repeat split; try assumption.
  - destruct (values out.2) as [|[ts0 v0] rest] eqn:E; [discriminate Hlast|].
    exists ts0, v0. split; [reflexivity|].
    apply Forall_cons in Hnew as [Hts0 _]. exact Hts0.
  - apply add_value_boundary.
  - assert (Hall : Forall (fun ts => ts <= t) (values self ++ [(t, value)]).*1).
    { rewrite fmap_app. apply Forall_app. split; [exact Hbound|].
      repeat constructor. simpl. lia. }
    rewrite Hsplit, fmap_app in Hall. apply Forall_app in Hall as [_ Hall].
    exact Hall.
Qed.

(** ** [add_value] inside the range of [datetime] *)

Lemma timedelta_of_minutes_in_range (m : Z) :
  - datetime_max <= m * 60000000 <= datetime_max ->
  timedelta_of_minutes m = Ok (timedelta_minutes m).
Proof.
  intros Hm. unfold timedelta_of_minutes, timedelta_minutes, datetime_max in *.
  assert (Hdays : -999999999 <= m * 60000000 / 86400000000 <= 999999999).
  { split.
    - apply Z.div_le_lower_bound; lia.
    - apply Z.div_le_upper_bound; lia. }
  destruct (Z.leb_spec (-999999999) (m * 60000000 / 86400000000)); [|lia].
  destruct (Z.leb_spec (m * 60000000 / 86400000000) 999999999); [|lia].
  reflexivity.
Qed.

Lemma cutoff_in_range (t W : Z) :
  is_datetime t -> is_datetime (t - timedelta_minutes W) ->
  (let? delta := timedelta_of_minutes W in datetime_sub t delta) =
  Ok (t - timedelta_minutes W).
Proof.
  unfold is_datetime. intros Ht Hc.
  rewrite timedelta_of_minutes_in_range
    by (unfold timedelta_minutes in Hc; lia).
  cbn [rbind]. unfold datetime_sub.
  destruct (Z.leb_spec 0 (t - timedelta_minutes W)); [|lia].
  destruct (Z.leb_spec (t - timedelta_minutes W) datetime_max); [|lia].
  reflexivity.
Qed.

(** Inside the range of [datetime] the two embeddings of the method
    agree. *)
Lemma add_value_datetime_in_range self value timestamp now :
  let t := default now timestamp in
  is_datetime t ->
  is_datetime (t - timedelta_minutes (period_in_minutes self)) ->
  add_value_datetime self value timestamp now =
  add_value self value timestamp now.
Proof.
  intros t Ht Hc. unfold add_value_datetime. fold t.
  rewrite (cutoff_in_range t _ Ht Hc). reflexivity.
Qed.



(** ** The delta tracker with the range of [datetime] *)




(** C2, as stated, fails for a tracker with a negative window: the cutoff
    lies after the timestamp of the call, so the entry just inserted is
    removed with the rest. *)
Lemma add_value_datetime_negative_window :
  ~ (last (values
             (add_value_datetime
                {| field_name := Some "rain_mm";
                   values := [];
                   period_in_minutes := -1 |}
                (PInt 5) None 63839664000000000).2) =
     Some (63839664000000000, PInt 5)).
Proof. vm_compute. discriminate. Qed.

(** C2, amended. For a tracker whose window has a non-negative duration
    (the program creates windows of 60 and of 1440 minutes), a call whose
    timestamp [t] and cutoff [t - W] are within the range of [datetime],
    and timestamps that do not decrease across calls: [add_value] removes
    from the head exactly a prefix of entries older than [t - W]; every
    retained entry, the oldest one included, has a timestamp of at least
    [t - W]; the entry just inserted is still the last one; and the
    returned delta is computed from the retained entries alone. The
    ordering the next call relies on is preserved. *)
Theorem add_value_datetime_eviction self value timestamp now :
  let t := default now timestamp in
  let cutoff := t - timedelta_minutes (period_in_minutes self) in
  let out := add_value_datetime self value timestamp now in
  0 <= period_in_minutes self ->
  is_datetime t ->
  is_datetime cutoff ->
  StronglySorted Z.le (values self).*1 ->
  Forall (fun ts => ts <= t) (values self).*1 ->
  exists evicted,
    values self ++ [(t, value)] = evicted ++ values out.2 /\
    Forall (fun e => e.1 < cutoff) evicted /\
    Forall (fun e => cutoff <= e.1) (values out.2) /\
    (exists ts0 v0, head (values out.2) = Some (ts0, v0) /\ cutoff <= ts0) /\
    last (values out.2) = Some (t, value) /\
    out.1 = boundary_delta (values out.2) /\
    StronglySorted Z.le (values out.2).*1 /\
    Forall (fun ts => ts <= t) (values out.2).*1.
Proof.
  intros t cutoff out HW Ht Hc Hsorted Hbound. unfold out.
  rewrite (add_value_datetime_in_range self value timestamp now Ht Hc).
  apply add_value_unbounded_eviction; assumption.
Qed.

Lemma add_value_datetime_eviction_witness :
  exists evicted,
    [(63839664000000000, PInt 1); (63839665800000000, PInt 2);
     (63839667600000000, PInt 4)] ++ [(63839669400000000, PInt 7)] =
    evicted ++
      values (add_value_datetime
                {| field_name := Some "rain_mm";
                   values := [(63839664000000000, PInt 1);
                              (63839665800000000, PInt 2);
                              (63839667600000000, PInt 4)];
                   period_in_minutes := 60 |}
                (PInt 7) None 63839669400000000).2 /\
    Forall (fun e => e.1 < 63839669400000000 - timedelta_minutes 60) evicted.
Proof.
  destruct (add_value_datetime_eviction
              {| field_name := Some "rain_mm";
                 values := [(63839664000000000, PInt 1);
                            (63839665800000000, PInt 2);
                            (63839667600000000, PInt 4)];
                 period_in_minutes := 60 |}
              (PInt 7) None 63839669400000000)
    as (evicted & Hsplit & Hold & _).
  - simpl. lia.
  - unfold is_datetime, datetime_max. simpl. lia.
  - unfold is_datetime, datetime_max, timedelta_minutes. simpl. lia.
  - simpl. repeat constructor; lia.
  - simpl. repeat constructor; lia.
  - exists evicted. split; [exact Hsplit | exact Hold].
Defined.

(** ** Properties of the conversions *)

Section conversions.
Implicit Types (w : world) (name : option string) (x value : pyval).

Lemma delta_hour_refines name x w :
  delta_hour_mm_to_in name x w = spec_delta_accumulation 60 name x w.
Proof.
  unfold delta_hour_mm_to_in, spec_delta_accumulation, spec_get_or_create,
    tracker_add_value, registry_lacks, registry_getitem, registry_setitem,
    set_trackers, datetime_now, bind, ret, lift.
  simpl. destruct (_stateful_delta_trackers w !! name) as [tr|] eqn:E; simpl.
  - rewrite E. simpl. destruct (add_value _ _ _ _) as [[d|e] tr']; reflexivity.
  - rewrite lookup_insert_eq. simpl. rewrite insert_insert_eq.
    destruct (add_value _ _ _ _) as [[d|e] tr']; reflexivity.
Qed.

Lemma delta_day_refines name x w :
  delta_day_mm_to_in name x w = spec_delta_accumulation (60 * 24) name x w.
Proof.
  unfold delta_day_mm_to_in, spec_delta_accumulation, spec_get_or_create,
    tracker_add_value, registry_lacks, registry_getitem, registry_setitem,
    set_trackers, datetime_now, bind, ret, lift.
  simpl. destruct (_stateful_delta_trackers w !! name) as [tr|] eqn:E; simpl.
  - rewrite E. simpl. destruct (add_value _ _ _ _) as [[d|e] tr']; reflexivity.
  - rewrite lookup_insert_eq. simpl. rewrite insert_insert_eq.
    destruct (add_value _ _ _ _) as [[d|e] tr']; reflexivity.
Qed.

(** The registry after a stateful conversion. *)
Lemma spec_delta_accumulation_registry window name x w :
  let w' := (spec_delta_accumulation window name x w).2 in
  (forall other, other <> name ->
     _stateful_delta_trackers w' !! other = _stateful_delta_trackers w !! other) /\
  (forall tracker,
     _stateful_delta_trackers w !! name = Some tracker ->
     exists tracker',
       _stateful_delta_trackers w' !! name = Some tracker' /\
       period_in_minutes tracker' = period_in_minutes tracker /\
       field_name tracker' = field_name tracker) /\
  (_stateful_delta_trackers w !! name = None ->
     exists tracker',
       _stateful_delta_trackers w' !! name = Some tracker' /\
       period_in_minutes tracker' = window /\
       field_name tracker' = name).
Proof.
  unfold spec_delta_accumulation, spec_get_or_create. simpl.
  split; [|split].
  - intros other Hne. rewrite lookup_insert_ne by congruence.
    destruct (_stateful_delta_trackers w !! name); simpl; [reflexivity|].
    rewrite lookup_insert_ne by congruence. reflexivity.
  - intros tracker E. rewrite E. simpl. eexists.
    rewrite lookup_insert_eq. split; [reflexivity|].
    destruct (add_value_frame tracker x None
                (wall_clock (os w) (clock_reads w))) as [Hf Hp].
    split; assumption.
  - intros E. rewrite E. simpl. eexists.
    rewrite lookup_insert_eq. split; [reflexivity|].
    destruct (add_value_frame (DeltaTracker_init name window) x None
                (wall_clock (os w) (clock_reads w))) as [Hf Hp].
    split; assumption.
Qed.

Lemma windows_kept_refl w : windows_kept w w.
Proof. intros name tracker E. exists tracker. auto. Qed.


Lemma same_store_refl w : same_store w w.
Proof. repeat split. Qed.

Lemma same_store_trans w1 w2 w3 :
  same_store w1 w2 -> same_store w2 w3 -> same_store w1 w3.
Proof. intros (? & ? & ?) (? & ? & ?). repeat split; congruence. Qed.

Lemma spec_delta_accumulation_frame window name x w :
  same_store w (spec_delta_accumulation window name x w).2 /\
  windows_kept w (spec_delta_accumulation window name x w).2.
Proof.
  split; [repeat split|].
  intros other tracker E.
  destruct (spec_delta_accumulation_registry window name x w)
    as (Hother & Hsame & _).
  destruct (decide (other = name)) as [->|Hne].
  - apply Hsame. exact E.
  - exists tracker. rewrite Hother by exact Hne. auto.
Qed.

Lemma local_to_utc_frame x w :
  same_store w (local_to_utc x w).2 /\
  _stateful_delta_trackers (local_to_utc x w).2 = _stateful_delta_trackers w.
Proof.
  unfold local_to_utc. destruct (as_number x); simpl.
  - split; [apply same_store_refl | reflexivity].
  - unfold bind, datetime_now. simpl. split; [repeat split | reflexivity].
Qed.

(** The seven entries of the table, by cases. *)
Lemma conversions_cases name kind (conversion : pyval -> M pyval) :
  conversions name !! kind = Some conversion ->
  (kind, conversion) ∈ conversions_items name.
Proof. unfold conversions. apply elem_of_list_to_map_2. Qed.

Lemma conversion_frame name kind conversion x w :
  conversions name !! kind = Some conversion ->
  same_store w (conversion x w).2 /\ windows_kept w (conversion x w).2.
Proof.
  intros Hin. apply conversions_cases in Hin.
  unfold conversions_items in Hin.
  repeat (apply elem_of_cons in Hin as [Hin|Hin];
          [injection Hin as -> ->|]).
  - split; [apply same_store_refl | apply windows_kept_refl].
  - split; [apply same_store_refl | apply windows_kept_refl].
  - split; [apply same_store_refl | apply windows_kept_refl].
  - split; [apply same_store_refl | apply windows_kept_refl].
  - destruct (local_to_utc_frame x w) as [Hs Hr]. split; [exact Hs|].
    intros g tracker E. exists tracker. rewrite Hr. auto.
  - rewrite delta_hour_refines. apply spec_delta_accumulation_frame.
  - rewrite delta_day_refines. apply spec_delta_accumulation_frame.
  - apply elem_of_nil in Hin. destruct Hin.
Qed.

(** [apply_conversion] by cases on what the [try] block does. *)
Lemma apply_conversion_falsy value conversion_type name w :
  py_truthy conversion_type = false ->
  apply_conversion value conversion_type name w = (Ok value, w).
Proof. unfold apply_conversion. intros ->. reflexivity. Qed.

Lemma apply_conversion_unknown value conversion_type name w e :
  py_truthy conversion_type = true ->
  conversions_getitem name conversion_type = Raise e ->
  apply_conversion value conversion_type name w =
  (Ok value, (print_stderr (ErrorConverting value conversion_type e) w).2).
Proof.
  unfold apply_conversion. intros -> E.
  unfold try_except, bind, lift. rewrite E. reflexivity.
Qed.

Lemma apply_conversion_raises value conversion_type name w conversion e w' :
  py_truthy conversion_type = true ->
  conversions_getitem name conversion_type = Ok conversion ->
  conversion value w = (Raise e, w') ->
  apply_conversion value conversion_type name w =
  (Ok value, (print_stderr (ErrorConverting value conversion_type e) w').2).
Proof.
  unfold apply_conversion. intros -> E Hc.
  unfold try_except, bind, lift. rewrite E, Hc. reflexivity.
Qed.

Lemma apply_conversion_converts value conversion_type name w conversion r w' :
  py_truthy conversion_type = true ->
  conversions_getitem name conversion_type = Ok conversion ->
  conversion value w = (Ok r, w') ->
  apply_conversion value conversion_type name w = (Ok r, w').
Proof.
  unfold apply_conversion. intros -> E Hc.
  unfold try_except, bind, lift. rewrite E, Hc. reflexivity.
Qed.

Lemma apply_conversion_total value conversion_type name w :
  exists r, (apply_conversion value conversion_type name w).1 = Ok r.
Proof.
  destruct (py_truthy conversion_type) eqn:Ht.
  - destruct (conversions_getitem name conversion_type) as [conversion|e] eqn:E.
    + destruct (conversion value w) as [[r|e] w'] eqn:Hc.
      * rewrite (apply_conversion_converts _ _ _ _ _ _ _ Ht E Hc). eauto.
      * rewrite (apply_conversion_raises _ _ _ _ _ _ _ Ht E Hc). eauto.
    + rewrite (apply_conversion_unknown _ _ _ _ _ Ht E). eauto.
  - rewrite (apply_conversion_falsy _ _ _ _ Ht). eauto.
Qed.

Lemma conversions_getitem_Ok name conversion_type conversion :
  conversions_getitem name conversion_type = Ok conversion ->
  exists kind, conversion_type = PStr kind /\
               conversions name !! kind = Some conversion.
Proof.
  destruct conversion_type; simpl; try discriminate.
  destruct (conversions name !! s) eqn:E; [|discriminate].
  intros [= <-]. eauto.
Qed.

Lemma print_stderr_frame line w w' :
  same_store w w' /\ windows_kept w w' ->
  same_store w (print_stderr line w').2 /\
  windows_kept w (print_stderr line w').2.
Proof. intros [Hs Hw]. split; [exact Hs | exact Hw]. Qed.

Lemma apply_conversion_frame value conversion_type name w :
  same_store w (apply_conversion value conversion_type name w).2 /\
  windows_kept w (apply_conversion value conversion_type name w).2.
Proof.
  destruct (py_truthy conversion_type) eqn:Ht.
  - destruct (conversions_getitem name conversion_type) as [conversion|e] eqn:E.
    + destruct (conversions_getitem_Ok _ _ _ E) as (kind & -> & Hk).
      pose proof (conversion_frame name kind conversion value w Hk) as Hframe.
      destruct (conversion value w) as [[r|e] w'] eqn:Hc.
      * rewrite (apply_conversion_converts _ _ _ _ _ _ _ Ht E Hc).
        exact Hframe.
      * rewrite (apply_conversion_raises _ _ _ _ _ _ _ Ht E Hc).
        apply print_stderr_frame. exact Hframe.
    + rewrite (apply_conversion_unknown _ _ _ _ _ Ht E).
      apply print_stderr_frame.
      split; [apply same_store_refl | apply windows_kept_refl].
  - rewrite (apply_conversion_falsy _ _ _ _ Ht).
    split; [apply same_store_refl | apply windows_kept_refl].
Qed.
End conversions.

(** ** The conversion engine: failures, the hourly delta, the registry *)

Section conversion_claims.
Implicit Types (w : world) (name : option string) (value v : pyval).

Lemma conversions_getitem_unlisted name kind :
  kind ∉ (conversions_items name).*1 ->
  conversions_getitem name (PStr kind) = Raise KeyError.
Proof.
  intros Hnot. simpl. unfold conversions.
  rewrite (not_elem_of_list_to_map_1 _ _ Hnot). reflexivity.
Qed.

Lemma add_value_default (tr : DeltaTracker) v timestamp now :
  add_value tr v timestamp now =
  add_value tr v (Some (default now timestamp)) (default now timestamp).
Proof. reflexivity. Qed.

Lemma window_of_kind_cases kind window :
  window_of_kind kind = Some window ->
  (kind = "delta_hour_mm_to_in" /\ window = 60) \/
  (kind = "delta_day_mm_to_in" /\ window = 60 * 24).
Proof.
  unfold window_of_kind.
  destruct (String.eqb_spec kind "delta_hour_mm_to_in") as [->|_].
  - intros [= <-]. left. split; reflexivity.
  - destruct (String.eqb_spec kind "delta_day_mm_to_in") as [->|_];
      [|discriminate].
    intros [= <-]. right. split; reflexivity.
Qed.

(** A stateful kind runs the specification's
    [get_or_create(...).observe(v) / 25.4] inside the [try] block. *)
Lemma apply_conversion_stateful kind window value name w :
  window_of_kind kind = Some window ->
  apply_conversion value (PStr kind) name w =
  match spec_delta_accumulation window name value w with
  | (Ok r, w') => (Ok r, w')
  | (Raise e, w') =>
      (Ok value, (print_stderr (ErrorConverting value (PStr kind) e) w').2)
  end.
Proof.
  intros Hk.
  destruct (window_of_kind_cases kind window Hk) as [[-> ->]|[-> ->]].
  - rewrite <- delta_hour_refines.
    destruct (delta_hour_mm_to_in name value w) as [[r|e] w'] eqn:Hc.
    + apply (apply_conversion_converts _ _ _ _ (delta_hour_mm_to_in name));
        [reflexivity | reflexivity | exact Hc].
    + apply (apply_conversion_raises _ _ _ _ (delta_hour_mm_to_in name));
        [reflexivity | reflexivity | exact Hc].
  - rewrite <- delta_day_refines.
    destruct (delta_day_mm_to_in name value w) as [[r|e] w'] eqn:Hc.
    + apply (apply_conversion_converts _ _ _ _ (delta_day_mm_to_in name));
        [reflexivity | reflexivity | exact Hc].
    + apply (apply_conversion_raises _ _ _ _ (delta_day_mm_to_in name));
        [reflexivity | reflexivity | exact Hc].
Qed.


End conversion_claims.

(** C6, as stated, fails for an empty conversion kind: [''] is not in the
    table, yet [if conversion_type:] skips the [try] block, so nothing is
    logged. *)
Lemma apply_conversion_empty_kind_not_logged :
  ~ (conversions_getitem (Some "rain_mm") (PStr "") = Raise KeyError ->
     stderr (apply_conversion (PInt 5) (PStr "") (Some "rain_mm")
               (initial_world (example_env 0 1))).2 =
     stderr (initial_world (example_env 0 1)) ++
       [ErrorConverting (PInt 5) (PStr "") KeyError]).
Proof.
  intros H. specialize (H eq_refl). simpl in H. discriminate H.
Qed.

(** C6, amended. For a value and a conversion kind that [str] can format
    (no [int] above 4300 digits, so that the message of the handler can be
    built), [apply_conversion] never propagates an exception. When the
    kind is truthy and is not in the table, or the selected conversion
    raises, the error is logged and the original value is returned; a
    string outside the seven keys is such a kind. When the kind is falsy
    (empty string, [None], 0, an empty container) the original value is
    returned and nothing is logged. *)
Theorem apply_conversion_never_raises value conversion_type name w :
  printable value ->
  printable conversion_type ->
  (exists r, (apply_conversion value conversion_type name w).1 = Ok r) /\
  (py_truthy conversion_type = true ->
   forall e,
     conversions_getitem name conversion_type = Raise e ->
     apply_conversion value conversion_type name w =
     (Ok value, (print_stderr (ErrorConverting value conversion_type e) w).2)) /\
  (py_truthy conversion_type = true ->
   forall conversion e w',
     conversions_getitem name conversion_type = Ok conversion ->
     conversion value w = (Raise e, w') ->
     apply_conversion value conversion_type name w =
     (Ok value, (print_stderr (ErrorConverting value conversion_type e) w').2)) /\
  (forall kind,
     conversion_type = PStr kind ->
     kind ∉ (conversions_items name).*1 ->
     conversions_getitem name conversion_type = Raise KeyError) /\
  (py_truthy conversion_type = false ->
   apply_conversion value conversion_type name w = (Ok value, w)).
Proof.
  intros _ _.
  split; [apply apply_conversion_total|].
  split; [intros Ht e E; apply apply_conversion_unknown; assumption|].
  split.
  { intros Ht conversion e w' E Hc.
    apply (apply_conversion_raises _ _ _ _ conversion); assumption. }
  split.
  { intros kind -> Hnot. apply conversions_getitem_unlisted. exact Hnot. }
  intros Hf. apply apply_conversion_falsy. exact Hf.
Qed.

Lemma apply_conversion_never_raises_witness :
  apply_conversion (PInt 5) (PStr "furlongs") (Some "rain_mm")
    (initial_world (example_env 0 1)) =
  (Ok (PInt 5),
   (print_stderr (ErrorConverting (PInt 5) (PStr "furlongs") KeyError)
      (initial_world (example_env 0 1))).2) /\
  apply_conversion (PStr "wet") (PStr "mm_to_in") (Some "rain_mm")
    (initial_world (example_env 0 1)) =
  (Ok (PStr "wet"),
   (print_stderr (ErrorConverting (PStr "wet") (PStr "mm_to_in") TypeError)
      (initial_world (example_env 0 1))).2) /\
  apply_conversion (PInt 5) PNone (Some "rain_mm")
    (initial_world (example_env 0 1)) =
  (Ok (PInt 5), initial_world (example_env 0 1)).
Proof.
  split; [|split].
  - destruct (apply_conversion_never_raises (PInt 5) (PStr "furlongs")
                (Some "rain_mm") (initial_world (example_env 0 1)))
      as (_ & Hunknown & _ & Hkey & _);
      [constructor; vm_compute; reflexivity | constructor |].
    apply Hunknown; [reflexivity|].
    apply (Hkey "furlongs"); [reflexivity|].
    vm_compute. intros Hin.
    repeat (apply elem_of_cons in Hin as [Hin|Hin]; [discriminate Hin|]).
    apply elem_of_nil in Hin. exact Hin.
  - destruct (apply_conversion_never_raises (PStr "wet") (PStr "mm_to_in")
                (Some "rain_mm") (initial_world (example_env 0 1)))
      as (_ & _ & Hraises & _); [constructor | constructor |].
    apply (Hraises eq_refl (fun x => lift (py_truediv x (PFloat 25.4))));
      reflexivity.
  - destruct (apply_conversion_never_raises (PInt 5) PNone
                (Some "rain_mm") (initial_world (example_env 0 1)))
      as (_ & _ & _ & _ & Hfalsy);
      [constructor; vm_compute; reflexivity | constructor |].
    apply Hfalsy. reflexivity.
Defined.

Lemma truediv_zero_mm :
  py_truediv (PInt 0) (PFloat 25.4) = Ok (PFloat 0).
Proof. vm_compute. reflexivity. Qed.


Lemma five_mm_in_inches : approx_decimal 4 1969 (5 / 25.4)%float.
Proof. vm_compute. discriminate. Qed.





(** ** Persistence and start-up *)

(** C9, as stated, fails when the registry is not empty: for an absent
    file the function only prints, so a registry that holds a tracker still
    holds it afterwards. *)
Lemma load_delta_trackers_absent_keeps_registry :
  ~ (_stateful_delta_trackers
       (load_delta_trackers FileAbsent
          (apply_conversion (PInt 5) (PStr "delta_hour_mm_to_in")
             (Some "rain_mm") (initial_world (example_env 0 1))).2).2 = ∅).
Proof.
  intros Hempty.
  apply (f_equal (fun registry => registry !! Some "rain_mm")) in Hempty.
  vm_compute in Hempty. discriminate Hempty.
Qed.

(** C9, amended. [load_delta_trackers] never raises. When the pickle file
    is absent the registry is left as it is, which at start-up is the
    empty registry of the module; when the file is there but reading it
    raises, the failure is logged and the registry is reset to empty; a
    readable file replaces the registry. *)
Theorem load_delta_trackers_never_raises PICKLE_FILE w :
  let out := load_delta_trackers PICKLE_FILE w in
  out.1 = Ok tt /\
  (PICKLE_FILE = FileAbsent ->
   _stateful_delta_trackers out.2 = _stateful_delta_trackers w /\
   (_stateful_delta_trackers w = ∅ -> _stateful_delta_trackers out.2 = ∅) /\
   stderr out.2 = stderr w ++ [NoSavedTrackers]) /\
  (forall e,
     PICKLE_FILE = FileUnreadable e ->
     _stateful_delta_trackers out.2 = ∅ /\
     stderr out.2 = stderr w ++ [ErrorLoadingTrackers e]) /\
  (forall loaded,
     PICKLE_FILE = FileHolds loaded ->
     _stateful_delta_trackers out.2 = loaded /\
     stderr out.2 = stderr w ++ [LoadedTrackers]).
Proof.
  destruct PICKLE_FILE as [|e|loaded]; simpl.
  - split; [reflexivity|]. split; [|split]; [|discriminate|discriminate].
    intros _. split; [reflexivity|]. split; [|reflexivity].
    intros H. exact H.
  - split; [reflexivity|]. split; [discriminate|].
    split; [|discriminate].
    intros e' [= <-]. split; reflexivity.
  - split; [reflexivity|]. split; [discriminate|].
    split; [discriminate|].
    intros loaded' [= <-]. split; reflexivity.
Qed.

Lemma load_delta_trackers_never_raises_witness :
  _stateful_delta_trackers
    (load_delta_trackers FileAbsent (initial_world (example_env 0 1))).2 = ∅ /\
  _stateful_delta_trackers
    (load_delta_trackers (FileUnreadable UnpicklingError)
       (initial_world (example_env 0 1))).2 = ∅.
Proof.
  split.
  - destruct (load_delta_trackers_never_raises FileAbsent
                (initial_world (example_env 0 1))) as (_ & Habsent & _).
    destruct (Habsent eq_refl) as (_ & Hempty & _).
    apply Hempty. reflexivity.
  - destruct (load_delta_trackers_never_raises
                (FileUnreadable UnpicklingError)
                (initial_world (example_env 0 1))) as (_ & _ & Hbad & _).
    destruct (Hbad UnpicklingError eq_refl) as [Hempty _]. exact Hempty.
Defined.

(** C5 does not hold of the code. With a configuration that loads but has
    no credentials, [main] prints the error and returns, so the process
    ends with status 0 (before the read loop); a configuration that
    cannot be loaded does end it with status 1. *)
Theorem main_missing_credentials_exit_status :
  let env := example_env 0 1 in
  (main FileAbsent (FileHolds config_without_credentials)
     (initial_world env)).1 = Returned /\
  exit_status (main FileAbsent (FileHolds config_without_credentials)
                 (initial_world env)).1 = Some 0 /\
  stderr (main FileAbsent (FileHolds config_without_credentials)
            (initial_world env)).2 =
    [NoSavedTrackers; ErrorCredentialsRequired] /\
  exit_status (main FileAbsent (FileUnreadable JSONDecodeError)
                 (initial_world env)).1 = Some 1.
Proof. repeat split. Qed.

(** Start-up in general: an unloadable configuration exits with status 1;
    a loaded one whose station id or key is missing or falsy makes [main]
    return, which is exit status 0; in neither case is the read loop
    entered. *)
Lemma main_startup_cases PICKLE_FILE CONFIG_FILE w :
  let out := main PICKLE_FILE CONFIG_FILE w in
  (CONFIG_FILE = FileAbsent \/ (exists e, CONFIG_FILE = FileUnreadable e) ->
   out.1 = SysExit 1) /\
  (forall config station_id station_key translations,
     CONFIG_FILE = FileHolds config ->
     read_credentials config = Ok (station_id, station_key, translations) ->
     py_truthy station_id = false \/ py_truthy station_key = false ->
     out.1 = Returned /\ exit_status out.1 = Some 0).
Proof.
  simpl. unfold main.
  assert (Hok : (load_delta_trackers PICKLE_FILE w).1 = Ok tt)
    by (destruct PICKLE_FILE; reflexivity).
  destruct (load_delta_trackers PICKLE_FILE w) as [[[]|e] w1];
    [|discriminate Hok].
  split.
  - intros [->|[e ->]]; reflexivity.
  - intros config station_id station_key translations -> -> Hmissing.
    destruct Hmissing as [->| ->]; simpl.
    + split; reflexivity.
    + rewrite orb_true_r. split; reflexivity.
Qed.

(** ** Properties of the record translator *)

Section translator.
Implicit Types (w : world) (r : ref) (k : string) (v : pyval).
Implicit Types (json_data : gmap string pyval).

Lemma deref_setitem_ne r k v w k' :
  k <> k' -> deref (dict_setitem r k v w).2 r !! k' = deref w r !! k'.
Proof.
  intros Hne. unfold deref, dict_setitem. simpl.
  rewrite lookup_alter_eq.
  destruct (heap w !! r) as [d|]; simpl; [|reflexivity].
  apply lookup_insert_ne. exact Hne.
Qed.

Lemma deref_setitem_eq r k v w :
  is_Some (heap w !! r) -> deref (dict_setitem r k v w).2 r !! k = Some v.
Proof.
  intros [d Hd]. unfold deref, dict_setitem. simpl.
  rewrite lookup_alter_eq, Hd. simpl. apply lookup_insert_eq.
Qed.

Lemma dict_setitem_written r k v w :
  dict_written r [k] w (dict_setitem r k v w).2.
Proof.
  split; [reflexivity|]. split; [|split].
  - intros Hr. unfold dict_setitem. simpl.
    apply lookup_alter_is_Some. exact Hr.
  - intros k' Hk'. apply deref_setitem_ne.
    intros ->. apply Hk'. apply list_elem_of_singleton. reflexivity.
  - intros k' Hk'. destruct (decide (k = k')) as [<-|Hne].
    + rewrite deref_setitem_eq; [eauto|].
      unfold deref in Hk'. destruct (heap w !! r); [eauto|].
      simpl in Hk'. rewrite lookup_empty in Hk'.
      destruct Hk' as [? Hk']. discriminate Hk'.
    + rewrite deref_setitem_ne by exact Hne. exact Hk'.
Qed.

Lemma dict_written_refl r keys w : dict_written r keys w w.
Proof. repeat split; auto. Qed.

Lemma dict_written_trans r keys1 keys2 w1 w2 w3 :
  dict_written r keys1 w1 w2 -> dict_written r keys2 w2 w3 ->
  dict_written r (keys1 ++ keys2) w1 w3.
Proof.
  intros (Hd1 & Ha1 & Hk1 & Hs1) (Hd2 & Ha2 & Hk2 & Hs2).
  split; [congruence|]. split; [auto|]. split; [|auto].
  intros k Hk. rewrite Hk2, Hk1; [reflexivity| |];
    intros Hin; apply Hk; apply elem_of_app; auto.
Qed.

Lemma same_store_written r w w' : same_store w w' -> dict_written r [] w w'.
Proof.
  intros (Hh & Hd & _). unfold dict_written, deref. rewrite Hh.
  repeat split; auto.
Qed.

Lemma translate_rule_skipped json_data r trans w :
  json_data !! rtl_field trans = None ->
  translate_rule json_data r trans w = (Ok tt, w).
Proof. unfold translate_rule. intros ->. reflexivity. Qed.

Lemma translate_rule_written json_data r trans w :
  (translate_rule json_data r trans w).1 = Ok tt /\
  dict_written r (fired_fields json_data [trans]) w
    (translate_rule json_data r trans w).2.
Proof.
  unfold translate_rule, fired_fields.
  destruct (json_data !! rtl_field trans) as [value|] eqn:E.
  - rewrite filter_cons_True by (rewrite E; eauto).
    rewrite filter_nil. simpl.
    assert (Hconv : exists value' w1,
      (match conversion trans with
       | Some conversion_type =>
           apply_conversion value conversion_type (Some (rtl_field trans))
       | None => ret value
       end) w = (Ok value', w1) /\ same_store w w1).
    { destruct (conversion trans) as [conversion_type|].
      - destruct (apply_conversion_total value conversion_type
                    (Some (rtl_field trans)) w) as [value' Hv].
        destruct (apply_conversion_frame value conversion_type
                    (Some (rtl_field trans)) w) as [Hs _].
        destruct (apply_conversion value conversion_type
                    (Some (rtl_field trans)) w) as [res w1].
        simpl in *. subst res. eauto.
      - exists value, w. split; [reflexivity | apply same_store_refl]. }
    destruct Hconv as (value' & w1 & Hrun & Hs).
    unfold bind. rewrite Hrun. split; [reflexivity|].
    apply (dict_written_trans r [] [field trans] w w1).
    + apply same_store_written. exact Hs.
    + apply dict_setitem_written.
  - rewrite filter_cons_False by (rewrite E; intros [? ?]; discriminate).
    rewrite filter_nil. simpl. split; [reflexivity|].
    apply dict_written_refl.
Qed.

Lemma fired_fields_cons json_data trans rest :
  fired_fields json_data (trans :: rest) =
  fired_fields json_data [trans] ++ fired_fields json_data rest.
Proof.
  unfold fired_fields.
  change (trans :: rest) with ([trans] ++ rest).
  rewrite filter_app, fmap_app. reflexivity.
Qed.

Lemma for_translations_written json_data r translations : forall w,
  (for_translations json_data r translations w).1 = Ok tt /\
  dict_written r (fired_fields json_data translations) w
    (for_translations json_data r translations w).2.
Proof.
  induction translations as [|trans rest IH]; intros w; simpl.
  - split; [reflexivity | apply dict_written_refl].
  - destruct (translate_rule_written json_data r trans w) as [Hok Hw].
    unfold bind.
    destruct (translate_rule json_data r trans w) as [[[]|e] w1];
      [|discriminate Hok].
    simpl in Hw. destruct (IH w1) as [Hok' Hw'].
    split; [exact Hok'|].
    rewrite fired_fields_cons.
    apply (dict_written_trans r _ _ w w1); assumption.
Qed.

(** What a successful call returns and what it leaves in the heap. *)
Lemma populate_written json_data translations config w res w' :
  populate_wunderground_request_data json_data translations config w =
    (Ok res, w') ->
  res = DEFAULT_WU_DATA w /\
  dict_written (DEFAULT_WU_DATA w)
    ("PASSWORD" :: "ID" :: fired_fields json_data translations) w w'.
Proof.
  unfold populate_wunderground_request_data, bind, lift, ret. simpl.
  destruct (py_getitem config "wunderground") as [wunderground|]; simpl;
    [|discriminate].
  destruct (py_getitem wunderground "station_key") as [station_key|]; simpl;
    [|discriminate].
  destruct (py_getitem wunderground "station_id") as [station_id|]; simpl;
    [|discriminate].
  pose (w1 := (dict_setitem (DEFAULT_WU_DATA w) "PASSWORD" station_key w).2).
  pose (w2 := (dict_setitem (DEFAULT_WU_DATA w) "ID" station_id w1).2).
  destruct (for_translations_written json_data (DEFAULT_WU_DATA w)
              translations w2) as [Hok Hw].
  unfold w2, w1 in Hok, Hw. simpl in Hok, Hw.
  destruct (for_translations json_data (DEFAULT_WU_DATA w) translations _)
    as [[[]|e] w3]; [|discriminate Hok].
  intros [= <- <-]. split; [reflexivity|].
  change ("PASSWORD" :: "ID" :: fired_fields json_data translations)
    with (["PASSWORD"] ++ ["ID"] ++ fired_fields json_data translations).
  apply (dict_written_trans _ _ _ w w1); [apply dict_setitem_written|].
  apply (dict_written_trans _ _ _ w1 w2); [apply dict_setitem_written|].
  exact Hw.
Qed.

Lemma populate_keeps_binding json_data translations config w :
  DEFAULT_WU_DATA
    (populate_wunderground_request_data json_data translations config w).2 =
  DEFAULT_WU_DATA w.
Proof.
  unfold populate_wunderground_request_data, bind, lift, ret. simpl.
  destruct (py_getitem config "wunderground") as [wunderground|]; simpl;
    [|reflexivity].
  destruct (py_getitem wunderground "station_key") as [station_key|]; simpl;
    [|reflexivity].
  destruct (py_getitem wunderground "station_id") as [station_id|]; simpl;
    [|reflexivity].
  destruct (for_translations_written json_data (DEFAULT_WU_DATA w)
              translations
              (dict_setitem (DEFAULT_WU_DATA w) "ID" station_id
                 (dict_setitem (DEFAULT_WU_DATA w) "PASSWORD" station_key
                    w).2).2) as [Hok (Hd & _)].
  simpl in Hok, Hd.
  destruct (for_translations json_data (DEFAULT_WU_DATA w) translations _)
    as [[[]|e] w3]; [|discriminate Hok].
  simpl in *. exact Hd.
Qed.

Lemma translate_seq_same_object readings translations config : forall w,
  Forall (fun out => forall res, out = Ok res -> res = DEFAULT_WU_DATA w)
    (translate_seq readings translations config w).1.
Proof.
  induction readings as [|json_data rest IH]; intros w; simpl.
  - constructor.
  - constructor.
    + intros res Hres.
      destruct (populate_wunderground_request_data json_data translations
                  config w) as [out w'] eqn:E.
      simpl in Hres. subst out.
      apply (populate_written _ _ _ _ _ _ E).
    + rewrite <- (populate_keeps_binding json_data translations config w).
      apply IH.
Qed.
End translator.

(** ** The record translator: stateless formulas, skipped rules, the shared
    base record *)

Section stateless.
Implicit Types (w : world) (name : option string) (x : float) (z : Z).

Lemma float_of_int_9 : float_of_int 9 = Ok 9%float.
Proof. vm_compute. reflexivity. Qed.

Lemma float_of_int_5 : float_of_int 5 = Ok 5%float.
Proof. vm_compute. reflexivity. Qed.

Lemma float_of_int_32 : float_of_int 32 = Ok 32%float.
Proof. vm_compute. reflexivity. Qed.

Lemma py_mul_float_int x z (f : float) :
  float_of_int z = Ok f -> py_mul (PFloat x) (PInt z) = Ok (PFloat (x * f)).
Proof. intros Hf. unfold py_mul, arith. simpl. rewrite Hf. reflexivity. Qed.

Lemma py_truediv_float_int x z (f : float) :
  float_of_int z = Ok f -> (f =? 0)%float = false ->
  py_truediv (PFloat x) (PInt z) = Ok (PFloat (x / f)).
Proof.
  intros Hf Hnz. unfold py_truediv, arith. simpl. rewrite Hf. simpl.
  unfold float_true_divide. rewrite Hnz. reflexivity.
Qed.

Lemma py_add_float_int x z (f : float) :
  float_of_int z = Ok f -> py_add (PFloat x) (PInt z) = Ok (PFloat (x + f)).
Proof. intros Hf. unfold py_add, arith. simpl. rewrite Hf. reflexivity. Qed.

Lemma c_to_f_float x :
  (let? x9 := py_mul (PFloat x) (PInt 9) in
   let? x9_5 := py_truediv x9 (PInt 5) in
   py_add x9_5 (PInt 32)) = Ok (PFloat (x * 9 / 5 + 32)).
Proof.
  rewrite (py_mul_float_int x 9 9 float_of_int_9). cbn [rbind].
  rewrite (py_truediv_float_int _ 5 5 float_of_int_5) by reflexivity.
  cbn [rbind]. apply (py_add_float_int _ 32 32 float_of_int_32).
Qed.

Lemma c_to_f_int z q :
  int_true_divide (z * 9) 5 = Ok (PFloat q) ->
  (let? x9 := py_mul (PInt z) (PInt 9) in
   let? x9_5 := py_truediv x9 (PInt 5) in
   py_add x9_5 (PInt 32)) = Ok (PFloat (q + 32)).
Proof.
  intros Hq.
  change (py_mul (PInt z) (PInt 9)) with (Ok (A:=pyval) (PInt (z * 9))).
  cbn [rbind].
  change (py_truediv (PInt (z * 9)) (PInt 5)) with (int_true_divide (z * 9) 5).
  rewrite Hq. cbn [rbind].
  apply (py_add_float_int _ 32 32 float_of_int_32).
Qed.

Lemma mul_float_const x (c : float) :
  py_mul (PFloat x) (PFloat c) = Ok (PFloat (x * c)).
Proof. reflexivity. Qed.

Lemma mul_int_const z (f c : float) :
  float_of_int z = Ok f -> py_mul (PInt z) (PFloat c) = Ok (PFloat (f * c)).
Proof.
  intros Hf. unfold py_mul, arith. simpl. rewrite Hf. reflexivity.
Qed.

Lemma truediv_float_mm x :
  py_truediv (PFloat x) (PFloat 25.4) = Ok (PFloat (x / 25.4)).
Proof. reflexivity. Qed.

Lemma truediv_int_mm z (f : float) :
  float_of_int z = Ok f ->
  py_truediv (PInt z) (PFloat 25.4) = Ok (PFloat (f / 25.4)).
Proof.
  intros Hf. unfold py_truediv, arith. simpl. rewrite Hf. reflexivity.
Qed.

(** A stateless kind: the table entry runs, the world is untouched. *)
Lemma apply_conversion_stateless (formula : pyval -> result pyval)
    kind value name w r :
  conversions name !! kind = Some (fun arg => lift (formula arg)) ->
  py_truthy (PStr kind) = true ->
  formula value = Ok r ->
  apply_conversion value (PStr kind) name w = (Ok r, w).
Proof.
  intros Hk Ht Hr.
  apply (apply_conversion_converts _ _ _ _ (fun arg => lift (formula arg)));
    [exact Ht | simpl; rewrite Hk; reflexivity |].
  unfold lift. rewrite Hr. reflexivity.
Qed.
End stateless.

Lemma c_to_f_twenty :
  apply_conversion (PInt 20) (PStr "c_to_f") (Some "temperature_C") =
  fun w => (Ok (PFloat 68), w).
Proof. reflexivity. Qed.

Lemma populate_example_run w :
  populate_wunderground_request_data example_reading example_translations
    example_config w =
  (Ok (DEFAULT_WU_DATA w),
   {| _stateful_delta_trackers := _stateful_delta_trackers w;
      DEFAULT_WU_DATA := DEFAULT_WU_DATA w;
      heap :=
        alter (insert "rainin" (PFloat (5 / 25.4))) (DEFAULT_WU_DATA w)
          (alter (insert "tempf" (PFloat 68)) (DEFAULT_WU_DATA w)
             (alter (insert "ID" (PStr "KCASANFR1")) (DEFAULT_WU_DATA w)
                (alter (insert "PASSWORD" (PStr "secret")) (DEFAULT_WU_DATA w)
                   (heap w))));
      stderr := stderr w;
      clock_reads := clock_reads w;
      os := os w |}).
Proof. vm_compute. reflexivity. Qed.

Lemma populate_rain_only_run w :
  populate_wunderground_request_data example_reading_rain_only
    example_translations example_config w =
  (Ok (DEFAULT_WU_DATA w),
   {| _stateful_delta_trackers := _stateful_delta_trackers w;
      DEFAULT_WU_DATA := DEFAULT_WU_DATA w;
      heap :=
        alter (insert "rainin" (PFloat (5 / 25.4))) (DEFAULT_WU_DATA w)
          (alter (insert "ID" (PStr "KCASANFR1")) (DEFAULT_WU_DATA w)
             (alter (insert "PASSWORD" (PStr "secret")) (DEFAULT_WU_DATA w)
                (heap w)));
      stderr := stderr w;
      clock_reads := clock_reads w;
      os := os w |}).
Proof. vm_compute. reflexivity. Qed.

(** The scenario shared by the two properties of the base record: a
    reading with a temperature, then one without. *)
Lemma stale_destination_run w :
  is_Some (heap w !! DEFAULT_WU_DATA w) ->
  let first := populate_wunderground_request_data example_reading
                 example_translations example_config w in
  let second := populate_wunderground_request_data example_reading_rain_only
                  example_translations example_config first.2 in
  first.1 = Ok (DEFAULT_WU_DATA w) /\
  second.1 = Ok (DEFAULT_WU_DATA w) /\
  deref first.2 (DEFAULT_WU_DATA w) !! "tempf" = Some (PFloat 68) /\
  deref second.2 (DEFAULT_WU_DATA w) !! "tempf" = Some (PFloat 68).
Proof.
  intros [d Hd] first second. unfold second, first.
  rewrite populate_example_run. cbn [fst snd].
  rewrite populate_rain_only_run. cbn [fst snd DEFAULT_WU_DATA].
  split; [reflexivity|]. split; [reflexivity|].
  unfold deref. cbn [heap].
  rewrite !lookup_alter_eq, Hd.
  cbn [fmap option_fmap option_map default]. unfold id.
  split.
  - rewrite lookup_insert_ne by discriminate. apply lookup_insert_eq.
  - do 4 (rewrite lookup_insert_ne by discriminate). apply lookup_insert_eq.
Qed.

(** C10. The stateless table entries compute the formulas of section 4.3
    in Python's arithmetic: on a [float], ['c_to_f'] gives
    [v * 9 / 5 + 32], ['ms_to_mph'] gives [v * 2.237], ['mm_to_in'] gives
    [v / 25.4] and ['hpa_to_inhg'] gives [v * 0.02953]; on an [int] the same
    with the [int] converted to [float] and, for ['c_to_f'], with the
    correctly rounded quotient of [v * 9] by 5. With the rules
    [temperature_C -> tempf] by ['c_to_f'] and [rain_mm -> rainin] by
    ['mm_to_in'], the reading [{temperature_C: 20, rain_mm: 5}] yields a
    record with [tempf = 68.0] and [rainin = 5 / 25.4], which is 0.1969
    to four decimals. *)
Theorem stateless_conversions :
  (forall (x : float) name w,
     apply_conversion (PFloat x) (PStr "c_to_f") name w =
       (Ok (PFloat (x * 9 / 5 + 32)), w) /\
     apply_conversion (PFloat x) (PStr "ms_to_mph") name w =
       (Ok (PFloat (x * 2.237)), w) /\
     apply_conversion (PFloat x) (PStr "mm_to_in") name w =
       (Ok (PFloat (x / 25.4)), w) /\
     apply_conversion (PFloat x) (PStr "hpa_to_inhg") name w =
       (Ok (PFloat (x * 0.02953)), w)) /\
  (forall z (f : float) name w,
     float_of_int z = Ok f ->
     apply_conversion (PInt z) (PStr "ms_to_mph") name w =
       (Ok (PFloat (f * 2.237)), w) /\
     apply_conversion (PInt z) (PStr "mm_to_in") name w =
       (Ok (PFloat (f / 25.4)), w) /\
     apply_conversion (PInt z) (PStr "hpa_to_inhg") name w =
       (Ok (PFloat (f * 0.02953)), w)) /\
  (forall z (q : float) name w,
     int_true_divide (z * 9) 5 = Ok (PFloat q) ->
     apply_conversion (PInt z) (PStr "c_to_f") name w =
       (Ok (PFloat (q + 32)), w)) /\
  (forall w,
     is_Some (heap w !! DEFAULT_WU_DATA w) ->
     let out := populate_wunderground_request_data example_reading
                  example_translations example_config w in
     out.1 = Ok (DEFAULT_WU_DATA w) /\
     deref out.2 (DEFAULT_WU_DATA w) !! "tempf" = Some (PFloat 68) /\
     deref out.2 (DEFAULT_WU_DATA w) !! "rainin" = Some (PFloat (5 / 25.4)) /\
     approx_decimal 4 1969 (5 / 25.4)%float).
Proof.
  split; [|split; [|split]].
  - intros x name w. split; [|split; [|split]].
    + apply (apply_conversion_stateless
               (fun v => let? x9 := py_mul v (PInt 9) in
                         let? x9_5 := py_truediv x9 (PInt 5) in
                         py_add x9_5 (PInt 32)));
        [reflexivity | reflexivity | apply c_to_f_float].
    + apply (apply_conversion_stateless (fun v => py_mul v (PFloat 2.237)));
        reflexivity.
    + apply (apply_conversion_stateless (fun v => py_truediv v (PFloat 25.4)));
        reflexivity.
    + apply (apply_conversion_stateless (fun v => py_mul v (PFloat 0.02953)));
        reflexivity.
  - intros z f name w Hf. split; [|split].
    + apply (apply_conversion_stateless (fun v => py_mul v (PFloat 2.237)));
        [reflexivity | reflexivity | apply mul_int_const; exact Hf].
    + apply (apply_conversion_stateless (fun v => py_truediv v (PFloat 25.4)));
        [reflexivity | reflexivity | apply truediv_int_mm; exact Hf].
    + apply (apply_conversion_stateless (fun v => py_mul v (PFloat 0.02953)));
        [reflexivity | reflexivity | apply mul_int_const; exact Hf].
  - intros z q name w Hq.
    apply (apply_conversion_stateless
             (fun v => let? x9 := py_mul v (PInt 9) in
                       let? x9_5 := py_truediv x9 (PInt 5) in
                       py_add x9_5 (PInt 32)));
      [reflexivity | reflexivity | apply c_to_f_int; exact Hq].
  - intros w [d Hd] out. unfold out. rewrite populate_example_run.
    cbn [fst snd]. split; [reflexivity|].
    unfold deref. cbn [heap]. rewrite !lookup_alter_eq, Hd.
    cbn [fmap option_fmap option_map default]. unfold id.
    split; [|split].
    + rewrite lookup_insert_ne by discriminate. apply lookup_insert_eq.
    + apply lookup_insert_eq.
    + exact five_mm_in_inches.
Qed.

Lemma stateless_conversions_witness :
  apply_conversion (PInt 10) (PStr "ms_to_mph") (Some "wind_avg_m_s")
    (initial_world (example_env 0 1)) =
    (Ok (PFloat (10 * 2.237)), initial_world (example_env 0 1)) /\
  apply_conversion (PInt 20) (PStr "c_to_f") (Some "temperature_C")
    (initial_world (example_env 0 1)) =
    (Ok (PFloat (36 + 32)), initial_world (example_env 0 1)) /\
  deref
    (populate_wunderground_request_data example_reading example_translations
       example_config (initial_world (example_env 0 1))).2
    (DEFAULT_WU_DATA (initial_world (example_env 0 1))) !! "tempf" =
    Some (PFloat 68).
Proof.
  destruct stateless_conversions as (_ & Hint & Hc & Hrecord).
  split; [|split].
  - apply (Hint 10 10%float (Some "wind_avg_m_s")
             (initial_world (example_env 0 1))).
    vm_compute. reflexivity.
  - apply (Hc 20 36%float (Some "temperature_C")
             (initial_world (example_env 0 1))).
    vm_compute. reflexivity.
  - apply (Hrecord (initial_world (example_env 0 1))).
    vm_compute. eauto.
Defined.

(** C3 does not hold of the code across calls. A rule whose source field
    is absent is skipped and writes nothing, but the record returned is
    the module's [DEFAULT_WU_DATA] itself: after a reading with a
    temperature, the record returned for a reading without one still has
    [tempf]. *)
Theorem translate_returns_skipped_destination :
  let w0 := initial_world (example_env 0 1) in
  let first := populate_wunderground_request_data example_reading
                 example_translations example_config w0 in
  let second := populate_wunderground_request_data example_reading_rain_only
                  example_translations example_config first.2 in
  example_reading_rain_only !! "temperature_C" = None /\
  (exists trans,
     trans ∈ example_translations /\
     rtl_field trans = "temperature_C" /\ field trans = "tempf") /\
  second.1 = Ok (DEFAULT_WU_DATA w0) /\
  deref second.2 (DEFAULT_WU_DATA w0) !! "tempf" = Some (PFloat 68).
Proof.
  intros w0 first second.
  destruct (stale_destination_run w0) as (_ & Hsecond & _ & Hstale).
  { vm_compute. eauto. }
  split; [reflexivity|]. split.
  - eexists. split; [apply list_elem_of_here|]. split; reflexivity.
  - split; [exact Hsecond | exact Hstale].
Qed.

(** C4. [populate_wunderground_request_data] returns the object bound to
    [DEFAULT_WU_DATA], and the binding never changes, so every call returns
    the same dict. A call removes no key from it and leaves every key
    other than the credentials and the destinations of the rules that fire
    as it was, so what one call wrote is still there after the next call
    unless that call writes it again. In particular: from a record without
    [tempf], the reading [{temperature_C: 20, rain_mm: 5}] makes the rule
    [temperature_C -> tempf] write 68.0, and the record returned for the
    next reading [{rain_mm: 5}], which lacks the source field, is the same
    object and still has [tempf = 68.0]. *)
Theorem populate_shares_default_record :
  (forall json_data translations config w res w',
     populate_wunderground_request_data json_data translations config w =
       (Ok res, w') ->
     res = DEFAULT_WU_DATA w /\
     DEFAULT_WU_DATA w' = DEFAULT_WU_DATA w /\
     (forall k, is_Some (deref w res !! k) -> is_Some (deref w' res !! k)) /\
     (forall k,
        k ∉ "PASSWORD" :: "ID" :: fired_fields json_data translations ->
        deref w' res !! k = deref w res !! k)) /\
  (forall readings translations config w,
     Forall (fun out => forall res, out = Ok res -> res = DEFAULT_WU_DATA w)
       (translate_seq readings translations config w).1) /\
  (forall first_reading second_reading translations config w res w1 res'
          w2 k value,
     populate_wunderground_request_data first_reading translations config w
       = (Ok res, w1) ->
     populate_wunderground_request_data second_reading translations config
       w1 = (Ok res', w2) ->
     deref w1 res !! k = Some value ->
     k ∉ "PASSWORD" :: "ID" :: fired_fields second_reading translations ->
     res' = res /\ deref w2 res' !! k = Some value) /\
  (forall w,
     is_Some (heap w !! DEFAULT_WU_DATA w) ->
     deref w (DEFAULT_WU_DATA w) !! "tempf" = None ->
     let first := populate_wunderground_request_data example_reading
                    example_translations example_config w in
     let second := populate_wunderground_request_data
                     example_reading_rain_only example_translations
                     example_config first.2 in
     example_reading !! "temperature_C" = Some (PInt 20) /\
     example_reading_rain_only !! "temperature_C" = None /\
     (exists trans,
        trans ∈ example_translations /\
        rtl_field trans = "temperature_C" /\ field trans = "tempf") /\
     first.1 = Ok (DEFAULT_WU_DATA w) /\
     second.1 = Ok (DEFAULT_WU_DATA w) /\
     deref first.2 (DEFAULT_WU_DATA w) !! "tempf" = Some (PFloat 68) /\
     deref second.2 (DEFAULT_WU_DATA w) !! "tempf" = Some (PFloat 68)).
Proof.
  assert (Hcall : forall json_data translations config w res w',
    populate_wunderground_request_data json_data translations config w =
      (Ok res, w') ->
    res = DEFAULT_WU_DATA w /\
    DEFAULT_WU_DATA w' = DEFAULT_WU_DATA w /\
    (forall k, is_Some (deref w res !! k) -> is_Some (deref w' res !! k)) /\
    (forall k,
       k ∉ "PASSWORD" :: "ID" :: fired_fields json_data translations ->
       deref w' res !! k = deref w res !! k)).
  { intros json_data translations config w res w' Hrun.
    destruct (populate_written _ _ _ _ _ _ Hrun)
      as (-> & Hd & _ & Hkeep & Hsome).
    repeat split; assumption. }
  split; [exact Hcall|]. split; [apply translate_seq_same_object|]. split.
  - intros first_reading second_reading translations config w res w1 res'
      w2 k value Hfirst Hsecond Hset Hnot.
    destruct (Hcall _ _ _ _ _ _ Hfirst) as (-> & Hd1 & _ & _).
    destruct (Hcall _ _ _ _ _ _ Hsecond) as (-> & _ & _ & Hkeep).
    split; [exact Hd1|]. rewrite (Hkeep k Hnot), Hd1. exact Hset.
  - intros w Halloc Hfresh first second.
    destruct (stale_destination_run w Halloc) as (H1 & H2 & H3 & H4).
    split; [reflexivity|]. split; [reflexivity|]. split.
    + eexists. split; [apply list_elem_of_here|]. split; reflexivity.
    + repeat split; assumption.
Qed.

Lemma populate_shares_default_record_witness :
  let w0 := initial_world (example_env 0 1) in
  let first := populate_wunderground_request_data example_reading
                 example_translations example_config w0 in
  let second := populate_wunderground_request_data example_reading_rain_only
                  example_translations example_config first.2 in
  deref w0 (DEFAULT_WU_DATA w0) !! "tempf" = None /\
  second.1 = Ok (DEFAULT_WU_DATA w0) /\
  deref second.2 (DEFAULT_WU_DATA w0) !! "tempf" = Some (PFloat 68) /\
  deref second.2 (DEFAULT_WU_DATA w0) !! "dateutc" =
    deref first.2 (DEFAULT_WU_DATA w0) !! "dateutc".
Proof.
  intros w0 first second.
  destruct populate_shares_default_record as (Hcall & _ & _ & Hstale).
  destruct (Hstale w0) as (_ & _ & _ & _ & Hsecond & _ & Htempf).
  - vm_compute. eauto.
  - vm_compute. reflexivity.
  - split; [vm_compute; reflexivity|].
    split; [exact Hsecond|]. split; [exact Htempf|].
    destruct (Hcall example_reading_rain_only example_translations
                example_config first.2 (DEFAULT_WU_DATA w0) second.2)
      as (_ & _ & _ & Hkeep).
    + vm_compute. reflexivity.
    + apply Hkeep. vm_compute. intros Hin.
      repeat (apply elem_of_cons in Hin as [Hin|Hin]; [discriminate Hin|]).
      apply elem_of_nil in Hin. exact Hin.
Defined.

(** ** Further properties of the delta tracker *)

Lemma popleft_while_old_all_old c (vs rest : list (Z * pyval)) :
  Forall (fun e => e.1 < c) vs ->
  popleft_while_old c (vs ++ rest) = popleft_while_old c rest.
Proof.
  induction vs as [|[ts v] vs IH]; intros Hall; [reflexivity|].
  apply Forall_cons in Hall as [Hts Hall]. simpl in *.
  destruct (Z.ltb_spec ts c); [apply IH; exact Hall | lia].
Qed.

Lemma py_sub_non_number (a b : pyval) :
  as_number b = None -> py_sub a b = Raise TypeError.
Proof.
  intros Hb. unfold py_sub, arith. rewrite Hb.
  destruct (as_number a) as [[z|f]|]; reflexivity.
Qed.



(** ** Further properties of the delta tracker with the range of
    [datetime] *)

(** X2. Eviction looks at the head only: while the oldest entry is inside
    the window (and the cutoff is a [datetime]) nothing is removed,
    whatever the timestamps of the entries behind it, and the delta is
    taken against that oldest entry. *)
Theorem add_value_head_in_window self value timestamp now t1 v1 pre :
  let t := default now timestamp in
  let out := add_value_datetime self value timestamp now in
  values self = (t1, v1) :: pre ->
  is_datetime t ->
  is_datetime (t - timedelta_minutes (period_in_minutes self)) ->
  t - timedelta_minutes (period_in_minutes self) <= t1 ->
  values out.2 = values self ++ [(t, value)] /\
  out.1 = (let? delta := py_sub value v1 in py_max0 delta).
Proof.
  intros t out Hv Ht Hc Hin. unfold out.
  rewrite (add_value_datetime_in_range self value timestamp now Ht Hc).
  rewrite (add_value_default self value timestamp now). fold t.
  destruct (add_value_within self t1 v1 pre t value Hv) as [Hvals Hres].
  { lia. }
  rewrite Hv. split; [exact Hvals | exact Hres].
Qed.

Lemma add_value_head_in_window_witness :
  values (add_value_datetime
            {| field_name := Some "rain_mm";
               values := [(63839667000000000, PInt 3);
                          (63839664000000000, PInt 4)];
               period_in_minutes := 60 |}
            (PInt 9) None 63839670000000000).2 =
  [(63839667000000000, PInt 3); (63839664000000000, PInt 4)] ++
  [(63839670000000000, PInt 9)].
Proof.
  apply (add_value_head_in_window
           {| field_name := Some "rain_mm";
              values := [(63839667000000000, PInt 3);
                         (63839664000000000, PInt 4)];
              period_in_minutes := 60 |}
           (PInt 9) None 63839670000000000 63839667000000000 (PInt 3)
           [(63839664000000000, PInt 4)]).
  - reflexivity.
  - unfold is_datetime, datetime_max. simpl. lia.
  - unfold is_datetime, datetime_max, timedelta_minutes. simpl. lia.
  - simpl. unfold timedelta_minutes. lia.
Defined.

(** X3. A tracker with a negative period keeps nothing: when no stored
    entry is newer than the call and the cutoff, which then lies after the
    call, is still a [datetime], every entry, the new one included, is
    older than the cutoff, the deque ends up empty and the call returns
    0. *)
Theorem add_value_negative_period self value timestamp now :
  let t := default now timestamp in
  let out := add_value_datetime self value timestamp now in
  period_in_minutes self < 0 ->
  is_datetime t ->
  is_datetime (t - timedelta_minutes (period_in_minutes self)) ->
  Forall (fun e => e.1 <= t) (values self) ->
  values out.2 = [] /\ out.1 = Ok (PInt 0).
Proof.
  intros t out HW Ht Hc Hle. unfold out.
  rewrite (add_value_datetime_in_range self value timestamp now Ht Hc).
  assert (Hvals : values (add_value self value timestamp now).2 = []).
  { rewrite add_value_values. fold t.
    rewrite <- (app_nil_r (values self ++ [(t, value)])).
    apply popleft_while_old_all_old.
    apply Forall_app. split.
    - eapply Forall_impl; [exact Hle|]. intros [ts v] Hts. simpl in *.
      unfold timedelta_minutes. lia.
    - repeat constructor. simpl. unfold timedelta_minutes. lia. }
  split; [exact Hvals|].
  rewrite add_value_boundary, Hvals. reflexivity.
Qed.

Lemma add_value_negative_period_witness :
  values (add_value_datetime
            {| field_name := None;
               values := [(63839664000000000, PInt 3)];
               period_in_minutes := -1 |}
            (PInt 9) None 63839664060000000).2 = [].
Proof.
  apply (add_value_negative_period
           {| field_name := None;
              values := [(63839664000000000, PInt 3)];
              period_in_minutes := -1 |} (PInt 9) None 63839664060000000).
  - simpl. lia.
  - unfold is_datetime, datetime_max. simpl. lia.
  - unfold is_datetime, datetime_max, timedelta_minutes. simpl. lia.
  - simpl. repeat constructor; simpl; lia.
Defined.

(** X4. A value that is not a number is stored like any other. Once it is
    the oldest entry, every call made while it is inside the window, with
    a cutoff that is a [datetime], raises [TypeError], and still appends
    its own value. *)
Theorem add_value_non_number_head self value timestamp now t1 v1 pre :
  let t := default now timestamp in
  let out := add_value_datetime self value timestamp now in
  values self = (t1, v1) :: pre ->
  as_number v1 = None ->
  is_datetime t ->
  is_datetime (t - timedelta_minutes (period_in_minutes self)) ->
  t - timedelta_minutes (period_in_minutes self) <= t1 ->
  out.1 = Raise TypeError /\
  values out.2 = values self ++ [(t, value)].
Proof.
  intros t out Hv Hnan Ht Hc Hin. unfold out.
  rewrite (add_value_datetime_in_range self value timestamp now Ht Hc).
  rewrite (add_value_default self value timestamp now). fold t.
  destruct (add_value_within self t1 v1 pre t value Hv) as [Hvals Hres].
  { lia. }
  rewrite Hv. split; [|exact Hvals].
  rewrite Hres, (py_sub_non_number value v1 Hnan). reflexivity.
Qed.

Lemma add_value_non_number_head_witness :
  (add_value_datetime
     {| field_name := Some "rain_mm";
        values := [(63839664000000000, PNone)];
        period_in_minutes := 60 |}
     (PFloat 2.5) None 63839664060000000).1 = Raise TypeError.
Proof.
  apply (add_value_non_number_head
           {| field_name := Some "rain_mm";
              values := [(63839664000000000, PNone)];
              period_in_minutes := 60 |}
           (PFloat 2.5) None 63839664060000000 63839664000000000 PNone []).
  - reflexivity.
  - reflexivity.
  - unfold is_datetime, datetime_max. simpl. lia.
  - unfold is_datetime, datetime_max, timedelta_minutes. simpl. lia.
  - simpl. unfold timedelta_minutes. lia.
Defined.

(** ** Further properties of the conversions *)

Section stateful_calls.
Implicit Types (w : world) (name : option string) (v : pyval).

Lemma window_of_kind_nonneg kind window :
  window_of_kind kind = Some window -> 0 <= window.
Proof.
  intros Hk. destruct (window_of_kind_cases kind window Hk) as [[_ ->]|[_ ->]];
    lia.
Qed.

(** The first stateful call for a field. *)
Lemma stateful_first_call kind window name v w :
  window_of_kind kind = Some window ->
  _stateful_delta_trackers w !! name = None ->
  let out := apply_conversion v (PStr kind) name w in
  out.1 = Ok (PFloat 0) /\
  (exists tracker,
     _stateful_delta_trackers out.2 !! name = Some tracker /\
     values tracker = [(wall_clock (os w) (clock_reads w), v)] /\
     period_in_minutes tracker = window) /\
  clock_reads out.2 = S (clock_reads w) /\
  os out.2 = os w /\
  stderr out.2 = stderr w.
Proof.
  intros Hk Hnew out. unfold out.
  rewrite (apply_conversion_stateful kind window) by exact Hk.
  unfold spec_delta_accumulation, spec_get_or_create. rewrite Hnew.
  cbn [fst snd].
  rewrite (add_value_fresh name window v None).
  cbn [rbind]. rewrite truediv_zero_mm. cbn [fst snd].
  split; [reflexivity|]. split; [|repeat split].
  eexists. cbn [_stateful_delta_trackers].
  rewrite lookup_insert_eq. split; [reflexivity|]. split.
  - apply (add_value_fresh_values name window v).
    apply (window_of_kind_nonneg kind). exact Hk.
  - rewrite (proj2 (add_value_frame _ _ _ _)). reflexivity.
Qed.

(** A stateful call for a field that has a tracker. *)
Lemma stateful_next_call kind window name v w tracker :
  window_of_kind kind = Some window ->
  _stateful_delta_trackers w !! name = Some tracker ->
  let observed := add_value tracker v None
                    (wall_clock (os w) (clock_reads w)) in
  let out := apply_conversion v (PStr kind) name w in
  (forall delta r,
     observed.1 = Ok delta -> py_truediv delta (PFloat 25.4) = Ok r ->
     out.1 = Ok r /\ stderr out.2 = stderr w) /\
  (forall e,
     observed.1 = Raise e ->
     out.1 = Ok v /\
     stderr out.2 = stderr w ++ [ErrorConverting v (PStr kind) e]) /\
  _stateful_delta_trackers out.2 !! name = Some observed.2.
Proof.
  intros Hk Hreg observed out. unfold out.
  rewrite (apply_conversion_stateful kind window) by exact Hk.
  unfold spec_delta_accumulation, spec_get_or_create. rewrite Hreg.
  cbn [fst snd]. fold observed.
  split; [|split].
  - intros delta r Hd Hr. rewrite Hd. cbn [rbind]. rewrite Hr.
    split; reflexivity.
  - intros e He. rewrite He. cbn [rbind]. split; reflexivity.
  - destruct (let? delta := observed.1 in py_truediv delta (PFloat 25.4));
      cbn [snd print_stderr _stateful_delta_trackers];
      apply lookup_insert_eq.
Qed.
End stateful_calls.

(** X5. Two integer readings of a field without a tracker, through either
    stateful kind. The first call returns 0.0. If the second call comes no
    later than one window after the first (the bound included), it returns
    [max(0, v2 - v1) / 25.4]; if it comes later, the first reading is
    evicted and it returns 0.0. *)
Theorem delta_two_readings kind window name (v1 v2 : Z) w :
  let t1 := wall_clock (os w) (clock_reads w) in
  let t2 := wall_clock (os w) (S (clock_reads w)) in
  let first := apply_conversion (PInt v1) (PStr kind) name w in
  let second := apply_conversion (PInt v2) (PStr kind) name first.2 in
  window_of_kind kind = Some window ->
  _stateful_delta_trackers w !! name = None ->
  first.1 = Ok (PFloat 0) /\
  (t2 - t1 <= timedelta_minutes window ->
   forall f : float,
     float_of_int (Z.max 0 (v2 - v1)) = Ok f ->
     second.1 = Ok (PFloat (f / 25.4))) /\
  (timedelta_minutes window < t2 - t1 -> second.1 = Ok (PFloat 0)).
Proof.
  intros t1 t2 first second Hk Hnew.
  destruct (stateful_first_call kind window name (PInt v1) w Hk Hnew)
    as (Hfirst & (tr1 & Hreg1 & Hv1 & Hp1) & Hclock & Hos & _).
  fold first in Hfirst, Hreg1, Hclock, Hos. fold t1 in Hv1.
  destruct (stateful_next_call kind window name (PInt v2) first.2 tr1 Hk Hreg1)
    as (Hok & _ & _).
  fold second in Hok. rewrite Hos, Hclock in Hok. fold t2 in Hok.
  split; [exact Hfirst|]. split.
  - intros Hin f Hf.
    destruct (add_value_within tr1 t1 (PInt v1) [] t2 (PInt v2) Hv1)
      as [_ Hres].
    { rewrite Hp1. lia. }
    change (add_value tr1 (PInt v2) (Some t2) t2)
      with (add_value tr1 (PInt v2) None t2) in Hres.
    rewrite py_delta_int in Hres.
    apply (Hok _ _ Hres). apply truediv_int_mm. exact Hf.
  - intros Hout.
    pose proof (window_of_kind_nonneg kind window Hk) as HW.
    assert (Hres : (add_value tr1 (PInt v2) None t2).1 = Ok (PInt 0)).
    { rewrite add_value_boundary, add_value_values, Hv1, Hp1.
      cbn [default app popleft_while_old]. unfold timedelta_minutes in *.
      destruct (Z.ltb_spec t1 (t2 - window * 60000000)); [|lia].
      destruct (Z.ltb_spec t2 (t2 - window * 60000000)); [lia|].
      reflexivity. }
    apply (Hok _ _ Hres). exact truediv_zero_mm.
Qed.

Lemma delta_two_readings_witness :
  (apply_conversion (PInt 30) (PStr "delta_day_mm_to_in") (Some "rain_mm")
     (apply_conversion (PInt 10) (PStr "delta_day_mm_to_in")
        (Some "rain_mm")
        (initial_world (example_env 0 86400000000))).2).1 =
    Ok (PFloat (20 / 25.4)) /\
  (apply_conversion (PInt 30) (PStr "delta_hour_mm_to_in") (Some "rain_mm")
     (apply_conversion (PInt 10) (PStr "delta_hour_mm_to_in")
        (Some "rain_mm")
        (initial_world (example_env 0 3600000001))).2).1 =
    Ok (PFloat 0).
Proof.
  split.
  - destruct (delta_two_readings "delta_day_mm_to_in" (60 * 24)
                (Some "rain_mm") 10 30
                (initial_world (example_env 0 86400000000)))
      as (_ & Hin & _); [reflexivity | reflexivity |].
    apply Hin; [vm_compute; discriminate | vm_compute; reflexivity].
  - destruct (delta_two_readings "delta_hour_mm_to_in" 60
                (Some "rain_mm") 10 30
                (initial_world (example_env 0 3600000001)))
      as (_ & _ & Hout); [reflexivity | reflexivity |].
    apply Hout. vm_compute. reflexivity.
Defined.

(** X6. The first value observed for a field is not checked: a value that
    is not a number gives 0.0 like any other and becomes the oldest entry.
    A second reading within the window then cannot be subtracted from it:
    the conversion logs a [TypeError] and returns the reading, which [str]
    can format, unconverted. *)
Theorem delta_after_non_number kind window name v1 v2 w :
  let t1 := wall_clock (os w) (clock_reads w) in
  let t2 := wall_clock (os w) (S (clock_reads w)) in
  let first := apply_conversion v1 (PStr kind) name w in
  let second := apply_conversion v2 (PStr kind) name first.2 in
  window_of_kind kind = Some window ->
  _stateful_delta_trackers w !! name = None ->
  as_number v1 = None ->
  printable v2 ->
  t2 - t1 <= timedelta_minutes window ->
  first.1 = Ok (PFloat 0) /\
  second.1 = Ok v2 /\
  stderr second.2 = stderr w ++ [ErrorConverting v2 (PStr kind) TypeError].
Proof.
  intros t1 t2 first second Hk Hnew Hnan _ Hin.
  destruct (stateful_first_call kind window name v1 w Hk Hnew)
    as (Hfirst & (tr1 & Hreg1 & Hv1 & Hp1) & Hclock & Hos & Herr).
  fold first in Hfirst, Hreg1, Hclock, Hos, Herr. fold t1 in Hv1.
  destruct (stateful_next_call kind window name v2 first.2 tr1 Hk Hreg1)
    as (_ & Hraise & _).
  fold second in Hraise. rewrite Hos, Hclock in Hraise. fold t2 in Hraise.
  destruct (add_value_within tr1 t1 v1 [] t2 v2 Hv1) as [_ Hres].
  { rewrite Hp1. lia. }
  change (add_value tr1 v2 (Some t2) t2)
    with (add_value tr1 v2 None t2) in Hres.
  rewrite (py_sub_non_number v2 v1 Hnan) in Hres.
  destruct (Hraise TypeError Hres) as [Hval Hlog].
  split; [exact Hfirst|]. split; [exact Hval|].
  rewrite Hlog, Herr. reflexivity.
Qed.

Lemma delta_after_non_number_witness :
  (apply_conversion (PFloat 2.5) (PStr "delta_hour_mm_to_in")
     (Some "rain_mm")
     (apply_conversion PNone (PStr "delta_hour_mm_to_in") (Some "rain_mm")
        (initial_world (example_env 0 1000000))).2).1 = Ok (PFloat 2.5).
Proof.
  destruct (delta_after_non_number "delta_hour_mm_to_in" 60 (Some "rain_mm")
              PNone (PFloat 2.5) (initial_world (example_env 0 1000000)))
    as (_ & Hsecond & _).
  - reflexivity.
  - reflexivity.
  - reflexivity.
  - constructor.
  - vm_compute. discriminate.
  - exact Hsecond.
Defined.

Lemma py_mul_float_non_number (v : pyval) (c : float) :
  as_number v = None -> py_mul v (PFloat c) = Raise TypeError.
Proof. destruct v; try discriminate; reflexivity. Qed.

Lemma py_truediv_non_number (v divisor : pyval) :
  as_number v = None -> py_truediv v divisor = Raise TypeError.
Proof. intros Hv. unfold py_truediv, arith. rewrite Hv. reflexivity. Qed.

Lemma c_to_f_non_number (v : pyval) :
  as_number v = None ->
  (let? x9 := py_mul v (PInt 9) in
   let? x9_5 := py_truediv x9 (PInt 5) in
   py_add x9_5 (PInt 32)) = Raise TypeError.
Proof. destruct v; try discriminate; reflexivity. Qed.

(** X7. The four unit conversions leave a value that is not a number
    ([None], a [str], a [list], a [dict]) and that [str] can format as it
    is, and log a [TypeError]: [str * 9] is a repetition, but the division
    that follows has no meaning, and neither have the other formulas. *)
Theorem stateless_non_number_unconverted value kind name w :
  as_number value = None ->
  printable value ->
  kind ∈ ["c_to_f"; "ms_to_mph"; "mm_to_in"; "hpa_to_inhg"] ->
  apply_conversion value (PStr kind) name w =
  (Ok value,
   (print_stderr (ErrorConverting value (PStr kind) TypeError) w).2).
Proof.
  intros Hnan _ Hkind.
  repeat (apply elem_of_cons in Hkind as [->|Hkind]).
  - apply (apply_conversion_raises _ _ _ _
             (fun x => lift (let? x9 := py_mul x (PInt 9) in
                             let? x9_5 := py_truediv x9 (PInt 5) in
                             py_add x9_5 (PInt 32))));
      [reflexivity | reflexivity |].
    unfold lift. rewrite (c_to_f_non_number value Hnan). reflexivity.
  - apply (apply_conversion_raises _ _ _ _
             (fun x => lift (py_mul x (PFloat 2.237))));
      [reflexivity | reflexivity |].
    unfold lift. rewrite (py_mul_float_non_number value _ Hnan). reflexivity.
  - apply (apply_conversion_raises _ _ _ _
             (fun x => lift (py_truediv x (PFloat 25.4))));
      [reflexivity | reflexivity |].
    unfold lift. rewrite (py_truediv_non_number value _ Hnan). reflexivity.
  - apply (apply_conversion_raises _ _ _ _
             (fun x => lift (py_mul x (PFloat 0.02953))));
      [reflexivity | reflexivity |].
    unfold lift. rewrite (py_mul_float_non_number value _ Hnan). reflexivity.
  - apply elem_of_nil in Hkind. destruct Hkind.
Qed.

Lemma stateless_non_number_unconverted_witness :
  apply_conversion (PStr "n/a") (PStr "c_to_f") (Some "temperature_C")
    (initial_world (example_env 0 1)) =
  (Ok (PStr "n/a"),
   (print_stderr (ErrorConverting (PStr "n/a") (PStr "c_to_f") TypeError)
      (initial_world (example_env 0 1))).2).
Proof.
  apply (stateless_non_number_unconverted (PStr "n/a") "c_to_f"
           (Some "temperature_C") (initial_world (example_env 0 1))).
  - reflexivity.
  - constructor.
  - apply list_elem_of_here.
Defined.

(** X8. Only the two delta kinds create or change trackers: with any
    other conversion kind, recognised or not, [apply_conversion] leaves the
    registry as it is. *)
Theorem registry_untouched_by_other_kinds value conversion_type name w :
  (forall kind, conversion_type = PStr kind -> window_of_kind kind = None) ->
  _stateful_delta_trackers (apply_conversion value conversion_type name w).2 =
  _stateful_delta_trackers w.
Proof.
  intros Hother.
  destruct (py_truthy conversion_type) eqn:Ht;
    [|rewrite (apply_conversion_falsy _ _ _ _ Ht); reflexivity].
  destruct (conversions_getitem name conversion_type) as [conversion|e] eqn:E;
    [|rewrite (apply_conversion_unknown _ _ _ _ _ Ht E); reflexivity].
  destruct (conversions_getitem_Ok _ _ _ E) as (kind & -> & Hk).
  specialize (Hother kind eq_refl).
  assert (Hconv : _stateful_delta_trackers (conversion value w).2 =
                  _stateful_delta_trackers w).
  { apply conversions_cases in Hk. unfold conversions_items in Hk.
    repeat (apply elem_of_cons in Hk as [Hk|Hk];
            [injection Hk as -> ->|]);
      try reflexivity; try discriminate Hother.
    - apply local_to_utc_frame.
    - apply elem_of_nil in Hk. destruct Hk. }
  destruct (conversion value w) as [[r|e] w'] eqn:Hc.
  - rewrite (apply_conversion_converts _ _ _ _ _ _ _ Ht E Hc). exact Hconv.
  - rewrite (apply_conversion_raises _ _ _ _ _ _ _ Ht E Hc). exact Hconv.
Qed.

Lemma registry_untouched_by_other_kinds_witness :
  _stateful_delta_trackers
    (apply_conversion (PInt 5) (PStr "mm_to_in") (Some "rain_mm")
       (initial_world (example_env 0 1))).2 =
  _stateful_delta_trackers (initial_world (example_env 0 1)).
Proof.
  apply (registry_untouched_by_other_kinds (PInt 5) (PStr "mm_to_in")
           (Some "rain_mm") (initial_world (example_env 0 1))).
  intros kind [= <-]. reflexivity.
Defined.

(** ** Further properties of the record translator *)

Section translator_more.
Implicit Types (w : world) (r : ref) (config : pyval).
Implicit Types (json_data : gmap string pyval).
Implicit Types (translations pre post : list translation).

Lemma for_translations_ok json_data r translations w :
  for_translations json_data r translations w =
  (Ok tt, (for_translations json_data r translations w).2).
Proof.
  destruct (for_translations_written json_data r translations w) as [Hok _].
  destruct (for_translations json_data r translations w) as [res w'].
  simpl in *. rewrite Hok. reflexivity.
Qed.

Lemma translate_rule_ok json_data r trans w :
  translate_rule json_data r trans w =
  (Ok tt, (translate_rule json_data r trans w).2).
Proof.
  destruct (translate_rule_written json_data r trans w) as [Hok _].
  destruct (translate_rule json_data r trans w) as [res w'].
  simpl in *. rewrite Hok. reflexivity.
Qed.

Lemma for_translations_cons json_data r trans rest w :
  for_translations json_data r (trans :: rest) w =
  for_translations json_data r rest (translate_rule json_data r trans w).2.
Proof.
  simpl. unfold bind. rewrite (translate_rule_ok json_data r trans w).
  reflexivity.
Qed.

Lemma for_translations_app json_data r pre post : forall w,
  for_translations json_data r (pre ++ post) w =
  for_translations json_data r post (for_translations json_data r pre w).2.
Proof.
  induction pre as [|trans pre IH]; intros w; [reflexivity|].
  rewrite <- app_comm_cons, !for_translations_cons. apply IH.
Qed.

Lemma for_translations_fired json_data r translations : forall w,
  for_translations json_data r translations w =
  for_translations json_data r
    (filter (fun trans => is_Some (json_data !! rtl_field trans)) translations)
    w.
Proof.
  induction translations as [|trans rest IH]; intros w; [reflexivity|].
  rewrite for_translations_cons.
  destruct (json_data !! rtl_field trans) as [value|] eqn:E.
  - rewrite filter_cons_True by (rewrite E; eauto).
    rewrite for_translations_cons. apply IH.
  - rewrite filter_cons_False by (rewrite E; intros [? ?]; discriminate).
    rewrite (translate_rule_skipped _ _ _ _ E). apply IH.
Qed.

(** With the credentials in place the function is the two writes followed
    by the loop over the rules. *)
Lemma populate_run json_data translations config w wunderground key id :
  py_getitem config "wunderground" = Ok wunderground ->
  py_getitem wunderground "station_key" = Ok key ->
  py_getitem wunderground "station_id" = Ok id ->
  populate_wunderground_request_data json_data translations config w =
  (Ok (DEFAULT_WU_DATA w),
   (for_translations json_data (DEFAULT_WU_DATA w) translations
      (dict_setitem (DEFAULT_WU_DATA w) "ID" id
         (dict_setitem (DEFAULT_WU_DATA w) "PASSWORD" key w).2).2).2).
Proof.
  intros Hwg Hkey Hid.
  unfold populate_wunderground_request_data, bind, lift, ret.
  rewrite Hwg, Hkey. cbn [dict_setitem fst snd]. rewrite Hid.
  cbn [dict_setitem fst snd DEFAULT_WU_DATA].
  match goal with
  | |- context [for_translations ?j ?r ?t ?w0] =>
      rewrite (for_translations_ok j r t w0)
  end.
  reflexivity.
Qed.
End translator_more.

(** X9. For a reading that is a JSON object and rules that are well
    formed, all with values that [str] can format, translating succeeds
    exactly when the configuration has a [wunderground] section with
    [station_key] and [station_id]: then the call cannot raise, otherwise
    it always does. *)
Theorem populate_succeeds_iff_credentials json_data translations config w :
  map_Forall (fun _ v => printable v) json_data ->
  Forall printable_rule translations ->
  (exists res,
     (populate_wunderground_request_data json_data translations config w).1 =
     Ok res) <->
  (exists wunderground key id,
     py_getitem config "wunderground" = Ok wunderground /\
     py_getitem wunderground "station_key" = Ok key /\
     py_getitem wunderground "station_id" = Ok id).
Proof.
  intros _ _. split.
  - intros [res Hres].
    unfold populate_wunderground_request_data, bind, lift, ret in Hres.
    destruct (py_getitem config "wunderground") as [wunderground|];
      [|discriminate Hres].
    destruct (py_getitem wunderground "station_key") as [key|] eqn:Hkey;
      [|discriminate Hres].
    cbn [dict_setitem fst snd] in Hres.
    destruct (py_getitem wunderground "station_id") as [id|] eqn:Hid;
      [|discriminate Hres].
    exists wunderground, key, id. repeat split; assumption.
  - intros (wunderground & key & id & Hwg & Hkey & Hid).
    rewrite (populate_run _ _ _ _ _ _ _ Hwg Hkey Hid). eauto.
Qed.

(** X10. The password is written before the station id is read: with a
    configuration that has [station_key] but no [station_id] the call
    raises, the shared record already holds the new [PASSWORD], and no
    rule has run. *)
Theorem populate_partial_write json_data translations config w
    wunderground key e :
  let out := populate_wunderground_request_data json_data translations
               config w in
  py_getitem config "wunderground" = Ok wunderground ->
  py_getitem wunderground "station_key" = Ok key ->
  py_getitem wunderground "station_id" = Raise e ->
  is_Some (heap w !! DEFAULT_WU_DATA w) ->
  out.1 = Raise e /\
  deref out.2 (DEFAULT_WU_DATA w) !! "PASSWORD" = Some key /\
  (forall k, k <> "PASSWORD" ->
     deref out.2 (DEFAULT_WU_DATA w) !! k = deref w (DEFAULT_WU_DATA w) !! k) /\
  _stateful_delta_trackers out.2 = _stateful_delta_trackers w /\
  stderr out.2 = stderr w.
Proof.
  intros out Hwg Hkey Hid Halloc.
  assert (Hout : out = (Raise e,
            (dict_setitem (DEFAULT_WU_DATA w) "PASSWORD" key w).2)).
  { unfold out, populate_wunderground_request_data, bind, lift, ret.
    rewrite Hwg, Hkey. cbn [dict_setitem fst snd]. rewrite Hid.
    reflexivity. }
  rewrite Hout. cbn [fst snd].
  split; [reflexivity|]. split; [apply deref_setitem_eq; exact Halloc|].
  split; [|split; reflexivity].
  intros k Hk. apply deref_setitem_ne. congruence.
Qed.

Lemma populate_partial_write_witness :
  let config := PDict (<["wunderground" :=
                           PDict (<["station_key" := PStr "secret"]> ∅)]> ∅) in
  let out := populate_wunderground_request_data example_reading
               example_translations config
               (initial_world (example_env 0 1)) in
  out.1 = Raise KeyError /\
  deref out.2 1%positive !! "PASSWORD" = Some (PStr "secret").
Proof.
  intros config out.
  destruct (populate_partial_write example_reading example_translations
              config (initial_world (example_env 0 1))
              (PDict (<["station_key" := PStr "secret"]> ∅))
              (PStr "secret") KeyError) as (Hraise & Hpw & _).
  - reflexivity.
  - reflexivity.
  - reflexivity.
  - vm_compute. eauto.
  - split; [exact Hraise | exact Hpw].
Defined.

(** X11. A rule without conversion whose source field is in the reading
    copies the raw value to its destination, and the value is still there
    when the call returns unless a later rule that fires writes the same
    destination; so of two firing rules with one destination the later
    wins, and a rule with destination [ID] replaces the station id. *)
Theorem populate_copies_raw_value json_data pre trans post config w
    wunderground key id value :
  let out := populate_wunderground_request_data json_data
               (pre ++ trans :: post) config w in
  py_getitem config "wunderground" = Ok wunderground ->
  py_getitem wunderground "station_key" = Ok key ->
  py_getitem wunderground "station_id" = Ok id ->
  is_Some (heap w !! DEFAULT_WU_DATA w) ->
  json_data !! rtl_field trans = Some value ->
  conversion trans = None ->
  field trans ∉ fired_fields json_data post ->
  deref out.2 (DEFAULT_WU_DATA w) !! field trans = Some value.
Proof.
  intros out Hwg Hkey Hid Halloc Hsrc Hconv Hlater. unfold out.
  rewrite (populate_run _ _ _ _ _ _ _ Hwg Hkey Hid). cbn [snd].
  set (r := DEFAULT_WU_DATA w).
  set (w2 := (dict_setitem r "ID" id (dict_setitem r "PASSWORD" key w).2).2).
  rewrite for_translations_app, for_translations_cons.
  set (w3 := (for_translations json_data r pre w2).2).
  assert (Halloc3 : is_Some (heap w3 !! r)).
  { destruct (for_translations_written json_data r pre w2)
      as (_ & _ & Ha & _).
    apply Ha. unfold w2, dict_setitem. cbn [heap snd].
    do 2 apply lookup_alter_is_Some. exact Halloc. }
  assert (Hrule : translate_rule json_data r trans w3 =
                  dict_setitem r (field trans) value w3).
  { unfold translate_rule. rewrite Hsrc, Hconv. reflexivity. }
  rewrite Hrule.
  destruct (for_translations_written json_data r post
              (dict_setitem r (field trans) value w3).2)
    as (_ & _ & _ & Hkeep & _).
  rewrite (Hkeep _ Hlater). apply deref_setitem_eq. exact Halloc3.
Qed.

Lemma populate_copies_raw_value_witness :
  deref
    (populate_wunderground_request_data
       (<["id" := PInt 77]> (<["humidity" := PInt 40]> ∅))
       ([{| rtl_field := "humidity"; field := "humidity";
            conversion := None |}] ++
        {| rtl_field := "id"; field := "ID"; conversion := None |} :: [])
       example_config (initial_world (example_env 0 1))).2
    1%positive !! "ID" = Some (PInt 77).
Proof.
  apply (populate_copies_raw_value
           (<["id" := PInt 77]> (<["humidity" := PInt 40]> ∅))
           [{| rtl_field := "humidity"; field := "humidity";
               conversion := None |}]
           {| rtl_field := "id"; field := "ID"; conversion := None |} []
           example_config (initial_world (example_env 0 1))
           (PDict (<["station_id" := PStr "KCASANFR1"]>
                     (<["station_key" := PStr "secret"]> ∅)))
           (PStr "secret") (PStr "KCASANFR1") (PInt 77)).
  - reflexivity.
  - reflexivity.
  - reflexivity.
  - vm_compute. eauto.
  - reflexivity.
  - reflexivity.
  - vm_compute. apply not_elem_of_nil.
Defined.

(** X12. The credentials of the configuration are in the record after
    every successful call, unless a rule that fires has [PASSWORD] or [ID]
    as its destination. *)
Theorem populate_writes_credentials json_data translations config w
    wunderground key id :
  let out := populate_wunderground_request_data json_data translations
               config w in
  py_getitem config "wunderground" = Ok wunderground ->
  py_getitem wunderground "station_key" = Ok key ->
  py_getitem wunderground "station_id" = Ok id ->
  is_Some (heap w !! DEFAULT_WU_DATA w) ->
  ("PASSWORD" ∉ fired_fields json_data translations ->
   deref out.2 (DEFAULT_WU_DATA w) !! "PASSWORD" = Some key) /\
  ("ID" ∉ fired_fields json_data translations ->
   deref out.2 (DEFAULT_WU_DATA w) !! "ID" = Some id).
Proof.
  intros out Hwg Hkey Hid Halloc. unfold out.
  rewrite (populate_run _ _ _ _ _ _ _ Hwg Hkey Hid). cbn [snd].
  set (r := DEFAULT_WU_DATA w).
  set (w1 := (dict_setitem r "PASSWORD" key w).2).
  assert (Halloc1 : is_Some (heap w1 !! r)).
  { unfold w1, dict_setitem. cbn [heap snd].
    apply lookup_alter_is_Some. exact Halloc. }
  destruct (for_translations_written json_data r translations
              (dict_setitem r "ID" id w1).2) as (_ & _ & _ & Hkeep & _).
  split; intros Hnot; rewrite (Hkeep _ Hnot).
  - rewrite deref_setitem_ne by discriminate.
    apply deref_setitem_eq. exact Halloc.
  - apply deref_setitem_eq. exact Halloc1.
Qed.

Lemma populate_writes_credentials_witness :
  deref
    (populate_wunderground_request_data example_reading example_translations
       example_config (initial_world (example_env 0 1))).2
    1%positive !! "ID" = Some (PStr "KCASANFR1").
Proof.
  destruct (populate_writes_credentials example_reading example_translations
              example_config (initial_world (example_env 0 1))
              (PDict (<["station_id" := PStr "KCASANFR1"]>
                        (<["station_key" := PStr "secret"]> ∅)))
              (PStr "secret") (PStr "KCASANFR1")) as [_ Hid].
  - reflexivity.
  - reflexivity.
  - reflexivity.
  - vm_compute. eauto.
  - apply Hid. vm_compute. intros Hin.
    repeat (apply elem_of_cons in Hin as [Hin|Hin]; [discriminate Hin|]).
    apply elem_of_nil in Hin. exact Hin.
Defined.

(** X13. Rules whose source field is not in the reading have no effect at
    all, on the record or on anything else: a call does what the same call
    with only the firing rules does. *)
Theorem populate_ignores_skipped_rules json_data translations config w :
  populate_wunderground_request_data json_data translations config w =
  populate_wunderground_request_data json_data
    (filter (fun trans => is_Some (json_data !! rtl_field trans)) translations)
    config w.
Proof.
  unfold populate_wunderground_request_data, bind, lift, ret.
  destruct (py_getitem config "wunderground") as [wunderground|];
    [|reflexivity].
  destruct (py_getitem wunderground "station_key") as [key|]; [|reflexivity].
  cbn [dict_setitem fst snd].
  destruct (py_getitem wunderground "station_id") as [id|]; [|reflexivity].
  cbn [dict_setitem fst snd DEFAULT_WU_DATA].
  rewrite for_translations_fired. reflexivity.
Qed.

Lemma printable_example_reading :
  map_Forall (fun _ v => printable v) example_reading.
Proof.
  intros k v Hk. unfold example_reading in Hk.
  apply lookup_insert_Some in Hk as [[_ <-]|[_ Hk]];
    [constructor; vm_compute; reflexivity|].
  apply lookup_insert_Some in Hk as [[_ <-]|[_ Hk]];
    [constructor; vm_compute; reflexivity|].
  rewrite lookup_empty in Hk. discriminate Hk.
Qed.

Lemma printable_example_translations :
  Forall printable_rule example_translations.
Proof.
  repeat constructor; intros conversion_type [= <-]; constructor.
Qed.

Lemma populate_succeeds_iff_credentials_witness :
  exists res,
    (populate_wunderground_request_data example_reading example_translations
       example_config (initial_world (example_env 0 1))).1 = Ok res.
Proof.
  apply (proj2 (populate_succeeds_iff_credentials example_reading
                  example_translations example_config
                  (initial_world (example_env 0 1))
                  printable_example_reading printable_example_translations)).
  exists (PDict (<["station_id" := PStr "KCASANFR1"]>
                   (<["station_key" := PStr "secret"]> ∅))),
    (PStr "secret"), (PStr "KCASANFR1").
  repeat split.
Defined.

(** ** Further properties of start-up *)

Section startup_more.
Implicit Types (w : world) (config : pyval).

Lemma load_delta_trackers_ok PICKLE_FILE w :
  load_delta_trackers PICKLE_FILE w =
  (Ok tt, (load_delta_trackers PICKLE_FILE w).2).
Proof. destruct PICKLE_FILE; reflexivity. Qed.

Lemma join_space_rtl_cmd (decoder_id rtl_freq : pyval) :
  (exists joined,
     join_space [PStr "rtl_433"; PStr "-v"; PStr "-R"; decoder_id;
                 PStr "-f"; rtl_freq; PStr "-F"; PStr "json"] = Ok joined) <->
  (exists d f, decoder_id = PStr d /\ rtl_freq = PStr f).
Proof.
  split.
  - intros [joined Hj].
    destruct decoder_id; try discriminate Hj.
    destruct rtl_freq; try discriminate Hj. eauto.
  - intros (d & f & -> & ->). simpl. eauto.
Qed.
End startup_more.

(** X14. [main] reaches the read loop exactly when the configuration
    loads, [station_id] and [station_key] are truthy, and the [rtl_sdr]
    section gives [frequency] and [decoder_id] as strings; the command is
    then [rtl_433 -v -R decoder_id -f frequency -F json]. A number for
    either of the two makes [' '.join] raise before the decoder is
    started. *)
Theorem main_reaches_read_loop_iff PICKLE_FILE CONFIG_FILE w rtl_cmd
    translations :
  (main PICKLE_FILE CONFIG_FILE w).1 = ReadLoop rtl_cmd translations <->
  (exists config station_id station_key rtl_sdr decoder_id rtl_freq,
     CONFIG_FILE = FileHolds config /\
     read_credentials config = Ok (station_id, station_key, translations) /\
     py_truthy station_id = true /\
     py_truthy station_key = true /\
     py_getitem config "rtl_sdr" = Ok rtl_sdr /\
     py_getitem rtl_sdr "frequency" = Ok (PStr rtl_freq) /\
     py_getitem rtl_sdr "decoder_id" = Ok (PStr decoder_id) /\
     rtl_cmd = [PStr "rtl_433"; PStr "-v"; PStr "-R"; PStr decoder_id;
                PStr "-f"; PStr rtl_freq; PStr "-F"; PStr "json"]).
Proof.
  unfold main. rewrite load_delta_trackers_ok.
  split.
  - destruct CONFIG_FILE as [|e|config]; try discriminate.
    destruct (read_credentials config) as [[[station_id station_key] tr]|e]
      eqn:Hcred; [|discriminate].
    destruct (py_truthy station_id) eqn:Hid; [|discriminate].
    destruct (py_truthy station_key) eqn:Hkey; [|discriminate].
    cbn [negb orb]. unfold get_rtl_command.
    destruct (py_getitem config "rtl_sdr") as [rtl_sdr|] eqn:Hrtl;
      [|discriminate].
    cbn [rbind].
    destruct (py_getitem rtl_sdr "frequency") as [rtl_freq|] eqn:Hfreq;
      [|discriminate].
    cbn [rbind].
    destruct (py_getitem rtl_sdr "decoder_id") as [decoder_id|] eqn:Hdec;
      [|discriminate].
    cbn [rbind].
    destruct decoder_id; try discriminate.
    destruct rtl_freq; try discriminate.
    cbn. intros [= <- <-].
    eexists config, station_id, station_key, rtl_sdr, _, _.
    repeat split; try eassumption; reflexivity.
  - intros (config & station_id & station_key & rtl_sdr & decoder_id
            & rtl_freq & -> & Hcred & Hid & Hkey & Hrtl & Hfreq & Hdec & ->).
    rewrite Hcred, Hid, Hkey. cbn [negb orb]. unfold get_rtl_command.
    rewrite Hrtl. cbn [rbind]. rewrite Hfreq. cbn [rbind]. rewrite Hdec.
    reflexivity.
Qed.

Lemma main_reaches_read_loop_iff_witness :
  let config :=
    PDict (<["wunderground" :=
               PDict (<["station_id" := PStr "KCASANFR1"]>
                        (<["station_key" := PStr "secret"]> ∅))]>
             (<["rtl_sdr" :=
                  PDict (<["frequency" := PStr "915M"]>
                           (<["decoder_id" := PStr "78"]> ∅))]> ∅)) in
  (main FileAbsent (FileHolds config) (initial_world (example_env 0 1))).1 =
  ReadLoop [PStr "rtl_433"; PStr "-v"; PStr "-R"; PStr "78";
            PStr "-f"; PStr "915M"; PStr "-F"; PStr "json"] (PDict ∅).
Proof.
  intros config.
  apply (proj2 (main_reaches_read_loop_iff FileAbsent (FileHolds config)
                  (initial_world (example_env 0 1)) _ (PDict ∅))).
  exists config, (PStr "KCASANFR1"), (PStr "secret"),
    (PDict (<["frequency" := PStr "915M"]> (<["decoder_id" := PStr "78"]> ∅))),
    "78", "915M".
  repeat split.
Defined.

(** X15. Whether and how start-up ends does not depend on the tracker
    file: absent, unreadable or readable, the outcome of [main] is the
    same. *)
Theorem main_outcome_independent_of_pickle PICKLE_FILE PICKLE_FILE'
    CONFIG_FILE w :
  (main PICKLE_FILE CONFIG_FILE w).1 = (main PICKLE_FILE' CONFIG_FILE w).1.
Proof.
  unfold main.
  rewrite (load_delta_trackers_ok PICKLE_FILE),
    (load_delta_trackers_ok PICKLE_FILE').
  destruct CONFIG_FILE as [|e|config]; try reflexivity.
  destruct (read_credentials config) as [[[station_id station_key] tr]|e];
    [|reflexivity].
  destruct (negb (py_truthy station_id) || negb (py_truthy station_key));
    [reflexivity|].
  destruct (let? rtl_cmd := get_rtl_command config in
            let? _ := join_space rtl_cmd in Ok rtl_cmd); reflexivity.
Qed.

(** X16. A configuration that parses but is not a JSON object, or whose
    [wunderground] member is not one, ends [main] with an uncaught
    [AttributeError] ([.get] on a non-dict): exit status 1, and no line
    beyond the one about the tracker file. *)
Theorem main_config_not_an_object PICKLE_FILE config w :
  let out := main PICKLE_FILE (FileHolds config) w in
  (forall d, config <> PDict d) \/
  (exists d section,
     config = PDict d /\ d !! "wunderground" = Some section /\
     forall d', section <> PDict d') ->
  out.1 = Traceback AttributeError /\
  exit_status out.1 = Some 1 /\
  out.2 = (load_delta_trackers PICKLE_FILE w).2.
Proof.
  intros out Hbad.
  assert (Hcred : read_credentials config = Raise AttributeError).
  { destruct Hbad as [Hnot|(d & section & -> & Hsec & Hnot)].
    - destruct config; try reflexivity. destruct (Hnot d). reflexivity.
    - unfold read_credentials, dict_get. rewrite Hsec. cbn [default rbind].
      destruct section; try reflexivity. destruct (Hnot d0). reflexivity. }
  unfold out, main. rewrite load_delta_trackers_ok, Hcred.
  repeat split.
Qed.

Lemma main_config_not_an_object_witness :
  (main FileAbsent (FileHolds (PList [])) (initial_world (example_env 0 1))).1
  = Traceback AttributeError.
Proof.
  apply (main_config_not_an_object FileAbsent (PList [])
           (initial_world (example_env 0 1))).
  left. intros d. discriminate.
Defined.

(** X17. With credentials but without an [rtl_sdr] section, [main] first
    announces the uploads and then ends with an uncaught [KeyError]: exit
    status 1, the decoder is never started. *)
Theorem main_without_rtl_sdr PICKLE_FILE d w station_id station_key
    translations :
  let out := main PICKLE_FILE (FileHolds (PDict d)) w in
  read_credentials (PDict d) = Ok (station_id, station_key, translations) ->
  py_truthy station_id = true ->
  py_truthy station_key = true ->
  d !! "rtl_sdr" = None ->
  out.1 = Traceback KeyError /\
  exit_status out.1 = Some 1 /\
  stderr out.2 =
    stderr (load_delta_trackers PICKLE_FILE w).2 ++
    [StartingUploads station_id].
Proof.
  intros out Hcred Hid Hkey Hrtl.
  unfold out, main.
  rewrite load_delta_trackers_ok, Hcred, Hid, Hkey. cbn [negb orb].
  unfold get_rtl_command, py_getitem. rewrite Hrtl.
  repeat split.
Qed.

Lemma main_without_rtl_sdr_witness :
  (main FileAbsent (FileHolds example_config)
     (initial_world (example_env 0 1))).1 = Traceback KeyError.
Proof.
  apply (main_without_rtl_sdr FileAbsent
           (<["wunderground" :=
                PDict (<["station_id" := PStr "KCASANFR1"]>
                         (<["station_key" := PStr "secret"]> ∅))]> ∅)
           (initial_world (example_env 0 1))
           (PStr "KCASANFR1") (PStr "secret") (PDict ∅));
    reflexivity.
Defined.

(** ** The uploader *)

Section strings.
Implicit Types (needle hay pre post : string).

Lemma str_startswith_spec needle : forall hay,
  str_startswith needle hay = true <-> exists post, hay = needle +:+ post.
Proof.
  induction needle as [|a needle IH]; intros hay; simpl.
  - split; [intros _; exists hay; reflexivity | reflexivity].
  - destruct hay as [|b hay]; simpl.
    + split; [discriminate | intros [post Hpost]; discriminate Hpost].
    + rewrite andb_true_iff, IH. split.
      * intros [Hab [post ->]]. apply Ascii.eqb_eq in Hab as ->.
        exists post. reflexivity.
      * intros [post [= -> ->]]. split; [apply Ascii.eqb_refl | eauto].
Qed.

Lemma str_contains_spec needle : forall hay,
  str_contains needle hay = true <->
  exists pre post, hay = pre +:+ needle +:+ post.
Proof.
  induction hay as [|b hay IH]; simpl.
  - rewrite orb_false_r, str_startswith_spec. split.
    + intros [post Hpost]. exists "", post. exact Hpost.
    + intros (pre & post & Heq). destruct pre as [|c pre]; [|discriminate Heq].
      exists post. exact Heq.
  - rewrite orb_true_iff, str_startswith_spec, IH. split.
    + intros [[post Hpost]|(pre & post & ->)].
      * exists "", post. exact Hpost.
      * exists (String b pre), post. reflexivity.
    + intros (pre & post & Heq). destruct pre as [|c pre].
      * left. exists post. exact Heq.
      * right. injection Heq as -> ->. eauto.
Qed.
End strings.

(** X18. An upload counts as successful exactly when the request returns
    with status 200 and a body that contains the text [success]. A
    successful upload prints nothing; any other answer, and any exception
    of the request, prints one line and gives [False]. *)
Theorem upload_succeeds_iff station_id station_key params net :
  let out := upload_to_wunderground station_id station_key params net in
  (out.1 = true <->
   exists pre post, net = HttpResponse 200 (pre +:+ "success" +:+ post)) /\
  (out.1 = true -> out.2 = []) /\
  (out.1 = false -> exists line, out.2 = [line]).
Proof.
  intros out. unfold out, upload_to_wunderground.
  destruct net as [status_code text|e]; cbn [fst snd].
  - destruct ((status_code =? 200) && str_contains "success" text) eqn:E;
      cbn [fst snd].
    + apply andb_true_iff in E as [Hcode Htext].
      apply Z.eqb_eq in Hcode as ->.
      apply str_contains_spec in Htext as (pre & post & ->).
      split; [|split; [reflexivity | discriminate]].
      split; [eauto | reflexivity].
    + split; [|split; [discriminate | eauto]].
      split; [discriminate|].
      intros (pre & post & [= -> ->]).
      rewrite Z.eqb_refl in E. cbn [andb] in E.
      assert (Hc : str_contains "success" (pre +:+ "success" +:+ post) = true)
        by (apply str_contains_spec; eauto).
      rewrite Hc in E. discriminate E.
  - split; [|split; [discriminate | eauto]].
    split; [discriminate | intros (pre & post & Heq); discriminate Heq].
Qed.

Lemma upload_succeeds_iff_witness :
  (upload_to_wunderground (PStr "KCASANFR1") (PStr "secret") ∅
     (HttpResponse 200 "success
")).1 = true /\
  exists line,
    (upload_to_wunderground (PStr "KCASANFR1") (PStr "secret") ∅
       (HttpResponse 401 "success")).2 = [line].
Proof.
  split.
  - apply (proj1 (upload_succeeds_iff (PStr "KCASANFR1") (PStr "secret") ∅
                    (HttpResponse 200 "success
"))).
    exists "", "
". reflexivity.
  - apply (proj2 (proj2 (upload_succeeds_iff (PStr "KCASANFR1")
                           (PStr "secret") ∅ (HttpResponse 401 "success")))).
    reflexivity.
Defined.

(** ** The read loop *)

Section json_readings.
Implicit Types (w : world) (r : ref) (json_data : pyval).
Implicit Types (translations : list translation).

Lemma translate_rule_json_dict d r trans w :
  translate_rule_json (PDict d) r trans w = translate_rule d r trans w.
Proof.
  unfold translate_rule_json, translate_rule, bind, lift, py_contains,
    py_getitem.
  destruct (d !! rtl_field trans) as [value|] eqn:E.
  - rewrite bool_decide_eq_true_2 by eauto. reflexivity.
  - rewrite bool_decide_eq_false_2 by (intros [? ?]; discriminate).
    reflexivity.
Qed.

Lemma for_translations_json_dict d r translations : forall w,
  for_translations_json (PDict d) r translations w =
  for_translations d r translations w.
Proof.
  induction translations as [|trans rest IH]; intros w; [reflexivity|].
  simpl. unfold bind. rewrite translate_rule_json_dict.
  destruct (translate_rule d r trans w) as [[[]|e] w']; [apply IH|reflexivity].
Qed.

(** On a JSON object the function is the one of the previous parts. *)
Lemma populate_json_dict d translations config w :
  populate_wunderground_request_data_json (PDict d) translations config w =
  populate_wunderground_request_data d translations config w.
Proof.
  unfold populate_wunderground_request_data_json,
    populate_wunderground_request_data, bind, lift, ret.
  destruct (py_getitem config "wunderground") as [wunderground|];
    [|reflexivity].
  destruct (py_getitem wunderground "station_key") as [key|]; [|reflexivity].
  cbn [dict_setitem fst snd].
  destruct (py_getitem wunderground "station_id") as [id|]; [|reflexivity].
  cbn [dict_setitem fst snd DEFAULT_WU_DATA].
  rewrite for_translations_json_dict. reflexivity.
Qed.

Lemma dict_written_weaken r keys w w' :
  dict_written r keys w w' ->
  DEFAULT_WU_DATA w' = DEFAULT_WU_DATA w /\
  (is_Some (heap w !! r) -> is_Some (heap w' !! r)) /\
  (forall k, is_Some (deref w r !! k) -> is_Some (deref w' r !! k)).
Proof. intros (Hd & Ha & _ & Hs). auto. Qed.

Lemma translate_rule_json_written json_data r trans w :
  exists keys,
    dict_written r keys w (translate_rule_json json_data r trans w).2.
Proof.
  unfold translate_rule_json, bind, lift.
  destruct (py_contains json_data (rtl_field trans)) as [[|]|e];
    cbn [fst snd];
    try (exists []; apply dict_written_refl).
  destruct (py_getitem json_data (rtl_field trans)) as [value|e];
    cbn [fst snd]; [|exists []; apply dict_written_refl].
  assert (Hconv : exists res w1,
    (match conversion trans with
     | Some conversion_type =>
         apply_conversion value conversion_type (Some (rtl_field trans))
     | None => ret value
     end) w = (res, w1) /\ same_store w w1).
  { destruct (conversion trans) as [conversion_type|].
    - destruct (apply_conversion_frame value conversion_type
                  (Some (rtl_field trans)) w) as [Hs _].
      destruct (apply_conversion value conversion_type
                  (Some (rtl_field trans)) w) as [res w1]. eauto.
    - exists (Ok value), w. split; [reflexivity | apply same_store_refl]. }
  destruct Hconv as (res & w1 & -> & Hs).
  destruct res as [value'|e]; cbn [fst snd].
  - exists ([] ++ [field trans]).
    apply (dict_written_trans r [] [field trans] w w1).
    + apply same_store_written. exact Hs.
    + apply dict_setitem_written.
  - exists []. apply same_store_written. exact Hs.
Qed.

Lemma for_translations_json_written json_data r translations : forall w,
  exists keys,
    dict_written r keys w (for_translations_json json_data r translations w).2.
Proof.
  induction translations as [|trans rest IH]; intros w; simpl.
  - exists []. apply dict_written_refl.
  - destruct (translate_rule_json_written json_data r trans w)
      as [keys1 H1].
    unfold bind.
    destruct (translate_rule_json json_data r trans w) as [[[]|e] w1];
      cbn [snd] in *.
    + destruct (IH w1) as [keys2 H2]. exists (keys1 ++ keys2).
      apply (dict_written_trans r _ _ w w1); assumption.
    + exists keys1. exact H1.
Qed.

(** Whatever the outcome, a call returns the shared record when it
    returns, keeps the binding, and removes no key of the record. *)
Lemma populate_json_written json_data translations config w :
  let out := populate_wunderground_request_data_json json_data translations
               config w in
  (forall res, out.1 = Ok res -> res = DEFAULT_WU_DATA w) /\
  exists keys, dict_written (DEFAULT_WU_DATA w) keys w out.2.
Proof.
  unfold populate_wunderground_request_data_json, bind, lift, ret.
  destruct (py_getitem config "wunderground") as [wunderground|];
    cbn [fst snd];
    [|split; [discriminate | exists []; apply dict_written_refl]].
  destruct (py_getitem wunderground "station_key") as [key|];
    cbn [fst snd];
    [|split; [discriminate | exists []; apply dict_written_refl]].
  pose (w1 := (dict_setitem (DEFAULT_WU_DATA w) "PASSWORD" key w).2).
  assert (H1 : dict_written (DEFAULT_WU_DATA w) ["PASSWORD"] w w1)
    by apply dict_setitem_written.
  change (dict_setitem (DEFAULT_WU_DATA w) "PASSWORD" key w)
    with (Ok tt, w1).
  cbn [fst snd].
  destruct (py_getitem wunderground "station_id") as [id|];
    cbn [fst snd]; [|split; [discriminate | eauto]].
  pose (w2 := (dict_setitem (DEFAULT_WU_DATA w) "ID" id w1).2).
  assert (H2 : dict_written (DEFAULT_WU_DATA w) ["ID"] w1 w2)
    by apply dict_setitem_written.
  change (dict_setitem (DEFAULT_WU_DATA w) "ID" id w1) with (Ok tt, w2).
  cbn [fst snd].
  destruct (for_translations_json_written json_data (DEFAULT_WU_DATA w)
              translations w2) as [keys H3].
  destruct (for_translations_json json_data (DEFAULT_WU_DATA w)
              translations w2) as [[[]|e] w3]; cbn [fst snd] in *.
  - split; [intros res [= <-]; reflexivity|].
    exists (["PASSWORD"] ++ ["ID"] ++ keys).
    apply (dict_written_trans _ _ _ w w1); [exact H1|].
    apply (dict_written_trans _ _ _ w1 w2); [exact H2 | exact H3].
  - split; [discriminate|].
    exists (["PASSWORD"] ++ ["ID"] ++ keys).
    apply (dict_written_trans _ _ _ w w1); [exact H1|].
    apply (dict_written_trans _ _ _ w1 w2); [exact H2 | exact H3].
Qed.
End json_readings.

(** The module state after the loop. *)
Lemma read_loop_mem station_id station_key translations config lines :
  forall s,
    mem (read_loop station_id station_key translations config lines s) =
    translate_all translations config (parsed_lines lines) (mem s).
Proof.
  induction lines as [|line lines IH]; intros s; [reflexivity|].
  unfold read_loop in *. cbn [foldl]. rewrite IH.
  destruct line as [|e|json_data net]; cbn [process_line mem]; try reflexivity.
  unfold parsed_lines, translate_all. cbn [omap list_omap foldl].
  destruct (populate_wunderground_request_data_json json_data translations
              config (mem s)) as [[wu_data|e] w]; reflexivity.
Qed.

(** X19. Blank lines, lines that do not parse and the answers of the
    network leave the module state alone: after the loop it is the state
    reached by translating the parsed values one after the other, so two
    outputs of the decoder with the same parsed values end in the same
    state. *)
Theorem read_loop_state station_id station_key translations config lines s :
  mem (read_loop station_id station_key translations config lines s) =
    translate_all translations config (parsed_lines lines) (mem s) /\
  forall lines',
    parsed_lines lines' = parsed_lines lines ->
    mem (read_loop station_id station_key translations config lines' s) =
    mem (read_loop station_id station_key translations config lines s).
Proof.
  split; [apply read_loop_mem|].
  intros lines' Hsame. rewrite !read_loop_mem, Hsame. reflexivity.
Qed.

Lemma read_loop_state_witness :
  mem (read_loop (PStr "KCASANFR1") (PStr "secret") example_translations
         example_config
         [BlankLine; JsonLine (PDict example_reading) (HttpRaises OSError);
          InvalidLine JSONDecodeError]
         {| mem := initial_world (example_env 0 1);
            uploads := []; console := [] |}) =
  mem (read_loop (PStr "KCASANFR1") (PStr "secret") example_translations
         example_config
         [JsonLine (PDict example_reading) (HttpResponse 200 "success")]
         {| mem := initial_world (example_env 0 1);
            uploads := []; console := [] |}).
Proof.
  apply (proj2 (read_loop_state (PStr "KCASANFR1") (PStr "secret")
                  example_translations example_config
                  [JsonLine (PDict example_reading)
                     (HttpResponse 200 "success")]
                  {| mem := initial_world (example_env 0 1);
                     uploads := []; console := [] |})).
  reflexivity.
Defined.

Lemma read_loop_app station_id station_key translations config pre post s :
  read_loop station_id station_key translations config (pre ++ post) s =
  read_loop station_id station_key translations config post
    (read_loop station_id station_key translations config pre s).
Proof. unfold read_loop. apply foldl_app. Qed.

Lemma process_line_appends station_id station_key translations config s line :
  exists added,
    uploads (process_line station_id station_key translations config s line)
    = uploads s ++ added.
Proof.
  destruct line as [|e|json_data net]; cbn [process_line].
  - exists []. rewrite app_nil_r. reflexivity.
  - exists []. rewrite app_nil_r. reflexivity.
  - destruct (populate_wunderground_request_data_json json_data translations
                config (mem s)) as [[wu_data|e] w]; cbn [uploads].
    + eauto.
    + exists []. rewrite app_nil_r. reflexivity.
Qed.

Lemma read_loop_appends station_id station_key translations config lines :
  forall s,
    exists added,
      uploads (read_loop station_id station_key translations config lines s)
      = uploads s ++ added.
Proof.
  induction lines as [|line lines IH]; intros s.
  - exists []. rewrite app_nil_r. reflexivity.
  - unfold read_loop in *. cbn [foldl].
    destruct (IH (process_line station_id station_key translations config
                    s line)) as [added2 H2].
    destruct (process_line_appends station_id station_key translations
                config s line) as [added1 H1].
    exists (added1 ++ added2). rewrite H2, H1, app_assoc. reflexivity.
Qed.

(** X20. With the credentials in the configuration and rules that are
    well formed, a line that parses to a JSON object (values that [str]
    can format) is uploaded exactly once, whatever lines came before it,
    blank, not parseable, failed uploads or other JSON values: the loop
    appends one request, made from the shared record as that line left it
    and with the result the network gives for it, and the lines that
    follow only append to the requests. *)
Theorem read_loop_uploads_every_object station_id station_key translations
    config wunderground key id pre d net post s :
  let before := read_loop station_id station_key translations config pre s in
  let after := process_line station_id station_key translations config
                 before (JsonLine (PDict d) net) in
  py_getitem config "wunderground" = Ok wunderground ->
  py_getitem wunderground "station_key" = Ok key ->
  py_getitem wunderground "station_id" = Ok id ->
  map_Forall (fun _ v => printable v) d ->
  Forall printable_rule translations ->
  mem after =
    (populate_wunderground_request_data d translations config
       (mem before)).2 /\
  uploads after =
    uploads before ++
    [(deref (mem after) (DEFAULT_WU_DATA (mem before)),
      (upload_to_wunderground station_id station_key
         (deref (mem after) (DEFAULT_WU_DATA (mem before))) net).1)] /\
  exists later,
    uploads (read_loop station_id station_key translations config
               (pre ++ JsonLine (PDict d) net :: post) s) =
    uploads after ++ later.
Proof.
  intros before after Hwg Hkey Hid _ _.
  assert (Hafter : after =
    {| mem := (populate_wunderground_request_data d translations config
                 (mem before)).2;
       uploads := uploads before ++
         [(deref (populate_wunderground_request_data d translations config
                    (mem before)).2 (DEFAULT_WU_DATA (mem before)),
           (upload_to_wunderground station_id station_key
              (deref (populate_wunderground_request_data d translations
                        config (mem before)).2
                 (DEFAULT_WU_DATA (mem before))) net).1)];
       console := console before ++
         [ReceivedData (PDict d);
          UpdateWunderground (DEFAULT_WU_DATA (mem before))] ++
         (upload_to_wunderground station_id station_key
            (deref (populate_wunderground_request_data d translations
                      config (mem before)).2
               (DEFAULT_WU_DATA (mem before))) net).2 |}).
  { unfold after. cbn [process_line]. rewrite populate_json_dict.
    rewrite (populate_run _ _ _ _ _ _ _ Hwg Hkey Hid). reflexivity. }
  split; [rewrite Hafter; reflexivity|].
  split; [rewrite Hafter; reflexivity|].
  rewrite read_loop_app. fold before.
  change (read_loop station_id station_key translations config
            (JsonLine (PDict d) net :: post) before)
    with (read_loop station_id station_key translations config post after).
  apply read_loop_appends.
Qed.

Lemma read_loop_uploads_every_object_witness :
  (uploads
     (process_line (PStr "KCASANFR1") (PStr "secret") example_translations
        example_config
        (read_loop (PStr "KCASANFR1") (PStr "secret") example_translations
           example_config
           [JsonLine (PInt 7) (HttpResponse 200 "success"); BlankLine;
            InvalidLine JSONDecodeError]
           {| mem := initial_world (example_env 0 1);
              uploads := []; console := [] |})
        (JsonLine (PDict example_reading) (HttpRaises OSError)))).*2 =
  [false].
Proof.
  destruct (read_loop_uploads_every_object (PStr "KCASANFR1") (PStr "secret")
              example_translations example_config
              (PDict (<["station_id" := PStr "KCASANFR1"]>
                        (<["station_key" := PStr "secret"]> ∅)))
              (PStr "secret") (PStr "KCASANFR1")
              [JsonLine (PInt 7) (HttpResponse 200 "success"); BlankLine;
               InvalidLine JSONDecodeError]
              example_reading (HttpRaises OSError) []
              {| mem := initial_world (example_env 0 1);
                 uploads := []; console := [] |}) as (_ & Hup & _).
  - reflexivity.
  - reflexivity.
  - reflexivity.
  - exact printable_example_reading.
  - exact printable_example_translations.
  - rewrite Hup. reflexivity.
Defined.

Section upload_fields.
Implicit Types (s : run_state) (r : ref).

Lemma process_line_nested station_id station_key translations config r s
    line :
  uploads_nested r s ->
  uploads_nested r
    (process_line station_id station_key translations config s line).
Proof.
  intros (Hr & Hsorted & Hall).
  destruct line as [|e|json_data net]; cbn [process_line].
  - repeat split; assumption.
  - repeat split; assumption.
  - destruct (populate_json_written json_data translations config (mem s))
      as [Hres [keys Hw]].
    rewrite Hr in Hres, Hw.
    destruct (dict_written_weaken _ _ _ _ Hw) as (Hd & _ & Hkeys).
    destruct (populate_wunderground_request_data_json json_data translations
                config (mem s)) as [[wu_data|e] w]; cbn [fst snd] in *.
    + rewrite (Hres wu_data eq_refl).
      assert (Hall' : Forall (fun u => forall k, is_Some (u.1 !! k) ->
                                is_Some (deref w r !! k)) (uploads s)).
      { eapply Forall_impl; [exact Hall|]. intros u Hu k Hk.
        apply Hkeys, Hu, Hk. }
      split; [cbn [mem]; congruence|]. cbn [mem uploads]. split.
      * apply StronglySorted_app_2; [|exact Hsorted|repeat constructor].
        intros u1 u2 Hu1 Hu2. apply list_elem_of_singleton in Hu2 as ->.
        rewrite Forall_forall in Hall'. intros k Hk. cbn [fst].
        apply (Hall' u1 Hu1 k Hk).
      * apply Forall_app. split; [exact Hall'|].
        repeat constructor. intros k Hk. exact Hk.
    + split; [cbn [mem]; congruence|]. cbn [mem uploads].
      split; [exact Hsorted|].
      eapply Forall_impl; [exact Hall|]. intros u Hu k Hk.
      apply Hkeys, Hu, Hk.
Qed.
End upload_fields.

(** X21. The fields of the requests only grow during a run: every field
    sent once, by whatever reading, is sent again with every later
    request, because all requests are made from the one shared record. *)
Theorem read_loop_fields_only_grow station_id station_key translations
    config lines w :
  StronglySorted fields_kept
    (uploads
       (read_loop station_id station_key translations config lines
          {| mem := w; uploads := []; console := [] |})).
Proof.
  assert (Hloop : forall lines s r,
    uploads_nested r s ->
    uploads_nested r
      (read_loop station_id station_key translations config lines s)).
  { clear lines. induction lines as [|line lines IH]; intros s r Hs.
    - exact Hs.
    - unfold read_loop in *. cbn [foldl]. apply IH.
      apply process_line_nested. exact Hs. }
  apply (Hloop lines _ (DEFAULT_WU_DATA w)).
  split; [reflexivity|]. split; constructor.
Qed.

(** X22. The trackers survive a restart: whatever the decoder did, when
    the save at the end of the run succeeds the file holds the registry as
    the last translated reading left it, and [load_delta_trackers] of the
    next process restores exactly that registry; when the save fails the
    file is what the failed write left. *)
Theorem run_decoder_persists_registry popen station_id station_key
    translations config attempt PICKLE_FILE w w_next :
  let parsed := match popen with
                | PopenStarted lines _ _ _ => parsed_lines lines
                | PopenRaises _ => []
                end in
  let out := run_decoder popen station_id station_key translations config
               attempt PICKLE_FILE w in
  mem out.1.2 = translate_all translations config parsed w /\
  (attempt = WriteSucceeds ->
   out.2 = FileHolds (_stateful_delta_trackers
                        (translate_all translations config parsed w)) /\
   _stateful_delta_trackers (load_delta_trackers out.2 w_next).2 =
   _stateful_delta_trackers (translate_all translations config parsed w)) /\
  (forall e left_on_disk,
     attempt = WriteRaises e left_on_disk -> out.2 = left_on_disk).
Proof.
  intros parsed out.
  assert (Hmem : mem out.1.2 = translate_all translations config parsed w).
  { unfold out, parsed, run_decoder.
    destruct popen as [e|lines read_error returncode stderr_output];
      cbn [fst snd mem]; [reflexivity|].
    apply read_loop_mem. }
  split; [exact Hmem|]. split.
  - intros ->.
    assert (Hdisk : out.2 = FileHolds (_stateful_delta_trackers
                      (translate_all translations config parsed w))).
    { rewrite <- Hmem. unfold out, run_decoder.
      destruct popen; reflexivity. }
    split; [exact Hdisk|]. rewrite Hdisk. reflexivity.
  - intros e left_on_disk ->. unfold out, run_decoder.
    destruct popen; reflexivity.
Qed.

Lemma run_decoder_persists_registry_witness :
  exists tracker,
    _stateful_delta_trackers
      (load_delta_trackers
         (run_decoder
            (PopenStarted
               [JsonLine (PDict example_reading) (HttpRaises OSError)]
               None (-15) "")
            (PStr "KCASANFR1") (PStr "secret")
            [{| rtl_field := "rain_mm"; field := "dailyrainin";
                conversion := Some (PStr "delta_day_mm_to_in") |}]
            example_config WriteSucceeds FileAbsent
            (initial_world (example_env 0 1))).2
         (initial_world (example_env 500 1))).2
      !! Some "rain_mm" = Some tracker /\
    values tracker = [(0, PInt 5)].
Proof.
  destruct (run_decoder_persists_registry
              (PopenStarted
                 [JsonLine (PDict example_reading) (HttpRaises OSError)]
                 None (-15) "")
              (PStr "KCASANFR1") (PStr "secret")
              [{| rtl_field := "rain_mm"; field := "dailyrainin";
                  conversion := Some (PStr "delta_day_mm_to_in") |}]
              example_config WriteSucceeds FileAbsent
              (initial_world (example_env 0 1))
              (initial_world (example_env 500 1))) as (_ & Hsaved & _).
  destruct (Hsaved eq_refl) as [_ Hload].
  rewrite Hload. eexists. split; reflexivity.
Defined.

(** X23. A line that parses to a number, a [bool] or [null] is not
    uploaded as soon as there is a rule: the membership test raises
    [TypeError], which the loop reports as an error in processing; the
    credentials have been written to the shared record by then. Without
    any rule such a line is uploaded like a reading. *)
Theorem process_line_not_iterable station_id station_key translations
    config wunderground key id json_data net s :
  let s' := process_line station_id station_key translations config s
              (JsonLine json_data net) in
  py_getitem config "wunderground" = Ok wunderground ->
  py_getitem wunderground "station_key" = Ok key ->
  py_getitem wunderground "station_id" = Ok id ->
  json_data = PNone \/ is_Some (as_number json_data) ->
  (translations <> [] ->
   uploads s' = uploads s /\
   console s' = console s ++
     [ReceivedData json_data; ErrorProcessingData TypeError] /\
   mem s' = (dict_setitem (DEFAULT_WU_DATA (mem s)) "ID" id
               (dict_setitem (DEFAULT_WU_DATA (mem s)) "PASSWORD" key
                  (mem s)).2).2) /\
  (translations = [] -> length (uploads s') = S (length (uploads s))).
Proof.
  intros s' Hwg Hkey Hid Hjson.
  assert (Hin : forall k, py_contains json_data k = Raise TypeError).
  { intros k. destruct Hjson as [->|[n Hn]]; [reflexivity|].
    destruct json_data; try discriminate Hn; reflexivity. }
  unfold s'. cbn [process_line].
  unfold populate_wunderground_request_data_json, bind, lift, ret.
  rewrite Hwg, Hkey. cbn [dict_setitem fst snd]. rewrite Hid.
  cbn [dict_setitem fst snd DEFAULT_WU_DATA].
  split.
  - intros Hrules. destruct translations as [|trans rest]; [congruence|].
    cbn [for_translations_json]. unfold bind, translate_rule_json, lift.
    rewrite Hin. repeat split.
  - intros ->. cbn [for_translations_json]. unfold ret.
    cbn [uploads]. rewrite length_app. cbn. lia.
Qed.

Lemma process_line_not_iterable_witness :
  uploads
    (process_line (PStr "KCASANFR1") (PStr "secret") example_translations
       example_config
       {| mem := initial_world (example_env 0 1);
          uploads := []; console := [] |}
       (JsonLine (PInt 7) (HttpResponse 200 "success"))) = [].
Proof.
  destruct (process_line_not_iterable (PStr "KCASANFR1") (PStr "secret")
              example_translations example_config
              (PDict (<["station_id" := PStr "KCASANFR1"]>
                        (<["station_key" := PStr "secret"]> ∅)))
              (PStr "secret") (PStr "KCASANFR1") (PInt 7)
              (HttpResponse 200 "success")
              {| mem := initial_world (example_env 0 1);
                 uploads := []; console := [] |}) as [Hrules _].
  - reflexivity.
  - reflexivity.
  - reflexivity.
  - right. simpl. eauto.
  - destruct Hrules as [Huploads _]; [discriminate | exact Huploads].
Defined.
